(** * The discount calculator of the coupon management API

    A shallow embedding of [DiscountCalculator] (services/discountCalculator.js)
    and the properties of its three evaluators and of its rounding helper.

    The calculator is JavaScript: its arguments are arbitrary values, its
    operators coerce, a property read on [null] throws, and each evaluator
    wraps its body in [try { ... } catch (error) { ... }].  The model keeps
    all of that: evaluators take [value]s, the bodies live in a small
    exception monad, and an evaluator is its body under the handler of its
    [catch].

    Numbers.  The calculator is modelled twice.  In the first model a
    number is an exact rational, [NaN] or one of the two infinities, and
    every arithmetic result is stored in lowest terms, so equal numbers are
    equal terms.  It carries the properties about structure: which result an
    evaluator returns, which lines and how many whole units a coupon
    touches, what is thrown and what is caught.  The engine computes on
    binary64 doubles, where an amount, a total or a comparison of totals can
    differ from the exact one.  The properties about those are stated on the
    second model, [Double], whose numbers are the doubles of the machine,
    with their rounding, their signed zero, [NaN] and the infinities.

    Arguments are plain data: no getters, proxies or functions.

    Objects.  An object is the list of its own properties, an array the
    list of its elements.  Two objects are never the same reference.

    Texts.  How a number prints and which number a text denotes is left to
    the host, the class [Host]; the properties hold for every host, and
    [Sample] is one to run the calculator on.

    Callers.  After the calculator come its two other helpers, the checks
    that [CouponService] (services/couponService.js) makes on a cart, and
    the two cart handlers of [CouponController]
    (controllers/couponController.js), with the service they await as a
    parameter; their properties close the file. *)

From Stdlib Require Import List String Ascii ZArith QArith Qround Qminmax
  Qreduction Bool Lia Lqa Permutation Sorted Floats.
Import ListNotations.

Local Open Scope string_scope.
Local Open Scope list_scope.

(** ** Numbers *)

Inductive num : Type :=
| Fin (q : Q)
| NaN
| PInf
| NInf.

Module Num.

Definition fin (q : Q) : num := Fin (Qred q).

Definition neg (x : num) : num :=
  match x with
  | Fin q => fin (- q)
  | NaN => NaN
  | PInf => NInf
  | NInf => PInf
  end.

Definition add (x y : num) : num :=
  match x, y with
  | NaN, _ | _, NaN => NaN
  | Fin a, Fin b => fin (a + b)
  | PInf, NInf | NInf, PInf => NaN
  | PInf, _ | _, PInf => PInf
  | NInf, _ | _, NInf => NInf
  end.

Definition sub (x y : num) : num :=
  match x, y with
  | Fin a, Fin b => fin (a - b)
  | _, _ => add x (neg y)
  end.

(* The product of an infinity and a finite number takes the sign of the
   finite factor; an infinity times zero is NaN. *)
Definition scale_inf (inf : num) (a : Q) : num :=
  match (a ?= 0)%Q with
  | Eq => NaN
  | Gt => inf
  | Lt => neg inf
  end.

Definition mul (x y : num) : num :=
  match x, y with
  | NaN, _ | _, NaN => NaN
  | Fin a, Fin b => fin (a * b)
  | Fin a, inf => scale_inf inf a
  | inf, Fin b => scale_inf inf b
  | PInf, PInf | NInf, NInf => PInf
  | PInf, NInf | NInf, PInf => NInf
  end.

Definition div (x y : num) : num :=
  match x, y with
  | NaN, _ | _, NaN => NaN
  | Fin a, Fin b =>
      if Qeq_bool b 0
      then match (a ?= 0)%Q with Eq => NaN | Gt => PInf | Lt => NInf end
      else fin (a / b)
  | Fin _, _ => Fin 0
  | inf, Fin b => match (b ?= 0)%Q with Lt => neg inf | _ => inf end
  | _, _ => NaN
  end.

(* [x < y]; [None] is the "undefined" answer of a comparison with NaN. *)
Definition lt (x y : num) : option bool :=
  match x, y with
  | NaN, _ | _, NaN => None
  | Fin a, Fin b => Some (if Qlt_le_dec a b then true else false)
  | NInf, NInf | PInf, PInf => Some false
  | NInf, _ | _, PInf => Some true
  | PInf, _ | _, NInf => Some false
  end.

Definition is_zero (x : num) : bool :=
  match x with
  | Fin q => Qeq_bool q 0
  | _ => false
  end.

(* Math.floor *)
Definition floor (x : num) : num :=
  match x with
  | Fin q => Fin (inject_Z (Qfloor q))
  | _ => x
  end.

(* Math.round: the nearest integer, a tie going towards +Infinity. *)
Definition round (x : num) : num :=
  match x with
  | Fin q => Fin (inject_Z (Qfloor (q + (1 # 2))))
  | _ => x
  end.

(* Math.min on two numbers *)
Definition min (x y : num) : num :=
  match lt x y with
  | None => NaN
  | Some true => x
  | Some false => y
  end.

End Num.

(** ** Values, exceptions *)

#[local] Set Warnings "-register-all".

Inductive value : Type :=
| VUndefined
| VNull
| VBool (b : bool)
| VNum (n : num)
| VStr (s : string)
| VArr (items : list value)
| VObj (props : list (string * value)).

Inductive error : Type :=
| Error (msg : string)
| TypeError (msg : string).

Definition message (e : error) : string :=
  match e with
  | Error m => m
  | TypeError m => m
  end.

Inductive completion (A : Type) : Type :=
| Return (a : A)
| Throw (e : error).

Arguments Return {A} a.
Arguments Throw {A} e.

Definition bind {A B : Type} (c : completion A) (k : A -> completion B)
  : completion B :=
  match c with
  | Return a => k a
  | Throw e => Throw e
  end.

Notation "x <- c ;; k" := (bind c (fun x => k))
  (at level 61, c at next level, right associativity).

(** What the engine supplies and the model leaves open: the decimal text of
    a number and the number a text denotes. *)
Class Host : Type := {
  NumberToString : num -> string;
  StringToNumber : string -> num
}.

Section Language.

Context {host : Host}.

Fixpoint own (key : string) (props : list (string * value)) : option value :=
  match props with
  | [] => None
  | (k, v) :: rest => if String.eqb k key then Some v else own key rest
  end.

(* Boolean coercion of a condition. *)
Definition truthy (v : value) : bool :=
  match v with
  | VUndefined | VNull => false
  | VBool b => b
  | VNum (Fin q) => negb (Qeq_bool q 0)
  | VNum NaN => false
  | VNum _ => true
  | VStr s => negb (String.eqb s "")
  | VArr _ | VObj _ => true
  end.

(* [a || b] with [b] free of effects. *)
Definition or_else (a b : value) : value := if truthy a then a else b.

Definition Array_isArray (v : value) : bool :=
  match v with
  | VArr _ => true
  | _ => false
  end.

Definition elements (v : value) : list value :=
  match v with
  | VArr items => items
  | _ => []
  end.

(* [v.key] for the keys the calculator reads; none of them is inherited
   from a prototype, so on anything but [null] and [undefined] the read
   gives the own property or [undefined]. *)
Definition get (v : value) (key : string) : completion value :=
  match v with
  | VUndefined =>
      Throw (TypeError ("Cannot read properties of undefined (reading '"
                          ++ key ++ "')"))
  | VNull =>
      Throw (TypeError ("Cannot read properties of null (reading '"
                          ++ key ++ "')"))
  | VObj props =>
      Return (match own key props with Some x => x | None => VUndefined end)
  | _ => Return VUndefined
  end.

(* String conversion.  An array joins its elements with commas, [null]
   and [undefined] elements giving the empty text.  A plain object gives
   "[object Object]", unless an own property hides [toString], which
   leaves no method to call. *)
Fixpoint ToString (v : value) : completion string :=
  match v with
  | VUndefined => Return "undefined"
  | VNull => Return "null"
  | VBool true => Return "true"
  | VBool false => Return "false"
  | VNum n => Return (NumberToString n)
  | VStr s => Return s
  | VArr items =>
      (fix join (l : list value) : completion string :=
         match l with
         | [] => Return ""
         | e :: rest =>
             s <- (match e with
                   | VUndefined | VNull => Return ""
                   | _ => ToString e
                   end) ;;
             match rest with
             | [] => Return s
             | _ => t <- join rest ;; Return (s ++ "," ++ t)%string
             end
         end) items
  | VObj props =>
      match own "toString" props with
      | Some _ => Throw (TypeError "Cannot convert object to primitive value")
      | None => Return "[object Object]"
      end
  end.

Definition ToPrimitive (v : value) : completion value :=
  match v with
  | VArr _ | VObj _ => s <- ToString v ;; Return (VStr s)
  | _ => Return v
  end.

Definition ToNumber (v : value) : completion num :=
  p <- ToPrimitive v ;;
  Return match p with
         | VNull => (Fin 0)
         | VBool true => Fin 1
         | VBool false => (Fin 0)
         | VNum n => n
         | VStr s => StringToNumber s
         | _ => NaN
         end.

Definition js_mul (a b : value) : completion num :=
  x <- ToNumber a ;; y <- ToNumber b ;; Return (Num.mul x y).

Definition js_div (a b : value) : completion num :=
  x <- ToNumber a ;; y <- ToNumber b ;; Return (Num.div x y).

Definition js_sub (a b : value) : completion num :=
  x <- ToNumber a ;; y <- ToNumber b ;; Return (Num.sub x y).

(* [a + b]: concatenation as soon as one side is a text. *)
Definition js_add (a b : value) : completion value :=
  pa <- ToPrimitive a ;;
  pb <- ToPrimitive b ;;
  match pa, pb with
  | VStr _, _ | _, VStr _ =>
      sa <- ToString pa ;; sb <- ToString pb ;; Return (VStr (sa ++ sb))
  | _, _ =>
      x <- ToNumber pa ;; y <- ToNumber pb ;; Return (VNum (Num.add x y))
  end.

(* The relational comparison behind [<], [>] and [>=]: two texts compare
   as texts, anything else as numbers. *)
Definition compare_prims (px py : value) : completion (option bool) :=
  match px, py with
  | VStr s, VStr t => Return (Some (String.ltb s t))
  | _, _ => x <- ToNumber px ;; y <- ToNumber py ;; Return (Num.lt x y)
  end.

Definition is_true (r : option bool) : bool :=
  match r with Some true => true | _ => false end.

Definition is_false (r : option bool) : bool :=
  match r with Some false => true | _ => false end.

Definition js_lt (a b : value) : completion bool :=
  pa <- ToPrimitive a ;; pb <- ToPrimitive b ;;
  r <- compare_prims pa pb ;; Return (is_true r).

Definition js_gt (a b : value) : completion bool :=
  pa <- ToPrimitive a ;; pb <- ToPrimitive b ;;
  r <- compare_prims pb pa ;; Return (is_true r).

Definition js_ge (a b : value) : completion bool :=
  pa <- ToPrimitive a ;; pb <- ToPrimitive b ;;
  r <- compare_prims pa pb ;; Return (is_false r).

(* [v === s] for a text [s] *)
Definition is_string (v : value) (s : string) : bool :=
  match v with
  | VStr t => String.eqb t s
  | _ => false
  end.

(* The equality of [Array.prototype.includes]. *)
Definition SameValueZero (a b : value) : bool :=
  match a, b with
  | VUndefined, VUndefined => true
  | VNull, VNull => true
  | VBool x, VBool y => Bool.eqb x y
  | VNum (Fin x), VNum (Fin y) => Qeq_bool x y
  | VNum NaN, VNum NaN => true
  | VNum PInf, VNum PInf => true
  | VNum NInf, VNum NInf => true
  | VStr s, VStr t => String.eqb s t
  | _, _ => false
  end.

Definition includes (array x : value) : bool :=
  existsb (fun e => SameValueZero e x) (elements array).

Definition Math_floor (v : value) : completion num :=
  x <- ToNumber v ;; Return (Num.floor x).

Definition Math_min (a b : value) : completion num :=
  x <- ToNumber a ;; y <- ToNumber b ;; Return (Num.min x y).

(* A loop over an array with an accumulator: [reduce], and [forEach] with
   the variables its callback assigns. *)
Fixpoint foldM {A S : Type} (f : S -> A -> completion S) (l : list A) (s : S)
  : completion S :=
  match l with
  | [] => Return s
  | x :: rest => s' <- f s x ;; foldM f rest s'
  end.

Fixpoint filterM {A : Type} (f : A -> completion bool) (l : list A)
  : completion (list A) :=
  match l with
  | [] => Return []
  | x :: rest =>
      b <- f x ;; r <- filterM f rest ;;
      Return (if b then x :: r else r)
  end.

Fixpoint mapM {A B : Type} (f : A -> completion B) (l : list A)
  : completion (list B) :=
  match l with
  | [] => Return []
  | x :: rest => y <- f x ;; r <- mapM f rest ;; Return (y :: r)
  end.

(** ** The calculator *)

(* static _roundPrice(price) *)
Definition _roundPrice (price : value) : num :=
  match price with
  | VNum n => Num.div (Num.round (Num.mul n (Fin 100))) (Fin 100)
  | _ => (Fin 0)
  end.

Definition no_items (v : value) : bool :=
  negb (truthy v) || negb (Array_isArray v)
  || (List.length (elements v) =? 0)%nat.

(* try { body } catch (error) { handler } *)
Definition try_catch {A : Type} (body : completion A)
  (handler : error -> completion A) : completion A :=
  match body with
  | Return r => Return r
  | Throw e => handler e
  end.

(* The handler of the three evaluators (its console.error left out). *)
Definition calculation_error (e : error) : completion value :=
  Return (VObj [("applicable", VBool false);
                ("reason", VStr ("Calculation error: " ++ message e));
                ("discountAmount", VNum (Fin 0))]).

Definition cart_is_empty : value :=
  VObj [("applicable", VBool false);
        ("reason", VStr "Cart is empty");
        ("discountAmount", VNum (Fin 0))].

Definition item_total (sum : num) (item : value) : completion num :=
  price <- get item "price" ;;
  quantity <- get item "quantity" ;;
  itemTotal <- js_mul (or_else price (VNum (Fin 0)))
                      (or_else quantity (VNum (Fin 0))) ;;
  Return (Num.add sum itemTotal).

(* Steps 4 to 7 of calculateCartWiseDiscount: the raw discount, the cap,
   the rounding, the result. *)
Definition cart_discount (cartTotal : num)
  (couponConditions discountConfig : value) : completion value :=
  type <- get discountConfig "type" ;;
  discountAmount <-
    (if is_string type "PERCENTAGE" then
       percentage <- get discountConfig "value" ;;
       product <- js_mul (VNum cartTotal) percentage ;;
       Return (VNum (Num.div product (Fin 100)))
     else if is_string type "FIXED_AMOUNT" then
       get discountConfig "value"
     else
       shown <- ToString type ;;
       Throw (Error ("Unknown discount type: " ++ shown))) ;;
  maximumDiscount <- get couponConditions "maximum_discount" ;;
  capped <- (if truthy maximumDiscount
             then js_gt discountAmount maximumDiscount
             else Return false) ;;
  value <- get discountConfig "value" ;;
  if capped then
    shown <- ToString maximumDiscount ;;
    Return (VObj [
      ("applicable", VBool true);
      ("discountAmount", VNum (_roundPrice maximumDiscount));
      ("reason", VStr ("Discount capped at maximum of Rs." ++ shown));
      ("breakdownInfo", VObj [
         ("cartTotal", VNum (_roundPrice (VNum cartTotal)));
         ("discountType", type);
         ("discountValue", value);
         ("calculatedDiscount", VNum (_roundPrice discountAmount));
         ("maximumCap", maximumDiscount);
         ("finalDiscount", VNum (_roundPrice maximumDiscount))])])
  else
    let rounded := _roundPrice discountAmount in
    Return (VObj [
      ("applicable", VBool true);
      ("discountAmount", VNum rounded);
      ("breakdownInfo", VObj [
         ("cartTotal", VNum (_roundPrice (VNum cartTotal)));
         ("discountType", type);
         ("discountValue", value);
         ("finalDiscount", VNum rounded);
         ("finalAmount",
          VNum (_roundPrice (VNum (Num.sub cartTotal rounded))))])]).

(* Step 3: the result below the minimum cart value. *)
Definition below_minimum (cartTotal : num) (minimumValue : value)
  : completion value :=
  shown <- ToString (VNum (_roundPrice (VNum cartTotal))) ;;
  needed <- ToString minimumValue ;;
  shortfall <- js_sub minimumValue (VNum cartTotal) ;;
  Return (VObj [
    ("applicable", VBool false);
    ("reason", VStr ("Cart total Rs." ++ shown
                       ++ " is below minimum Rs." ++ needed));
    ("discountAmount", VNum (Fin 0));
    ("breakdownInfo", VObj [
       ("cartTotal", VNum (_roundPrice (VNum cartTotal)));
       ("minimumRequired", minimumValue);
       ("shortfall", VNum (_roundPrice (VNum shortfall)))])]).

Definition calculateCartWiseDiscount_body
  (cartItems couponConditions discountConfig : value) : completion value :=
  if no_items cartItems then Return cart_is_empty
  else if negb (truthy couponConditions) || negb (truthy discountConfig)
  then Throw (Error "Invalid coupon conditions or discount config")
  else
    cartTotal <- foldM item_total (elements cartItems) (Fin 0) ;;
    minimum <- get couponConditions "minimum_cart_value" ;;
    let minimumValue := or_else minimum (VNum (Fin 0)) in
    below <- js_lt (VNum cartTotal) minimumValue ;;
    if below then below_minimum cartTotal minimumValue
    else cart_discount cartTotal couponConditions discountConfig.

Definition calculateCartWiseDiscount
  (cartItems couponConditions discountConfig : value) : completion value :=
  try_catch
    (calculateCartWiseDiscount_body cartItems couponConditions discountConfig)
    calculation_error.

(* The callback of the product-wise [forEach]; the state is
   [totalDiscount] and [discountedItems]. *)
Definition discount_item (applicableProducts discountConfig : value)
  (state : num * list value) (item : value) : completion (num * list value) :=
  let (totalDiscount, discountedItems) := state in
  product_id <- get item "product_id" ;;
  if includes applicableProducts product_id then
    price <- get item "price" ;;
    quantity <- get item "quantity" ;;
    itemTotal <- js_mul price quantity ;;
    type <- get discountConfig "type" ;;
    itemDiscount <-
      (if is_string type "PERCENTAGE" then
         value <- get discountConfig "value" ;;
         product <- js_mul (VNum itemTotal) value ;;
         Return (Num.div product (Fin 100))
       else if is_string type "FIXED_AMOUNT" then
         value <- get discountConfig "value" ;;
         js_mul value quantity
       else Return (Fin 0)) ;;
    Return (Num.add totalDiscount itemDiscount,
            discountedItems ++ [VObj [
              ("product_id", product_id);
              ("quantity", quantity);
              ("price", price);
              ("itemTotal", VNum itemTotal);
              ("discount", VNum (_roundPrice (VNum itemDiscount)))]])
  else Return state.

Definition product_ids (cartItems : value) : completion (list value) :=
  mapM (fun item => get item "product_id") (elements cartItems).

Definition calculateProductWiseDiscount_body
  (cartItems applicableProducts discountConfig : value) : completion value :=
  if no_items cartItems then Return cart_is_empty
  else if no_items applicableProducts then
    Return (VObj [
      ("applicable", VBool false);
      ("reason", VStr "No applicable products defined for this coupon");
      ("discountAmount", VNum (Fin 0))])
  else if negb (truthy discountConfig)
  then Throw (Error "Invalid discount config")
  else
    state <- foldM (discount_item applicableProducts discountConfig)
                   (elements cartItems) ((Fin 0), []) ;;
    let (totalDiscount, discountedItems) := state in
    if Num.is_zero totalDiscount then
      cartProducts <- product_ids cartItems ;;
      Return (VObj [
        ("applicable", VBool false);
        ("reason", VStr "No applicable products found in your cart");
        ("discountAmount", VNum (Fin 0));
        ("breakdownInfo", VObj [
           ("applicableProducts", applicableProducts);
           ("cartProducts", VArr cartProducts);
           ("message",
            VStr "Cart does not contain any of the eligible products")])])
    else
      let rounded := _roundPrice (VNum totalDiscount) in
      type <- get discountConfig "type" ;;
      value <- get discountConfig "value" ;;
      Return (VObj [
        ("applicable", VBool true);
        ("discountAmount", VNum rounded);
        ("breakdownInfo", VObj [
           ("discountType", type);
           ("discountValue", value);
           ("discountedItems", VArr discountedItems);
           ("totalDiscount", VNum rounded)])]).

Definition calculateProductWiseDiscount
  (cartItems applicableProducts discountConfig : value) : completion value :=
  try_catch
    (calculateProductWiseDiscount_body cartItems applicableProducts
       discountConfig)
    calculation_error.

(* The callback of the first BxGy [forEach]; the state is [buyCount] and
   [buyItems].  [buyCount += item.quantity] is the general [+]. *)
Definition count_buy (buyArray : value) (state : value * list value)
  (item : value) : completion (value * list value) :=
  let (buyCount, buyItems) := state in
  product_id <- get item "product_id" ;;
  if includes buyArray product_id then
    quantity <- get item "quantity" ;;
    buyCount' <- js_add buyCount quantity ;;
    price <- get item "price" ;;
    Return (buyCount',
            buyItems ++ [VObj [("product_id", product_id);
                               ("quantity", quantity);
                               ("price", price)]])
  else Return state.

(* (a, b) => b.price - a.price *)
Definition by_price (a b : value) : completion num :=
  pb <- get b "price" ;; pa <- get a "price" ;; js_sub pb pa.

Definition positive (c : num) : bool :=
  match c with
  | Fin q => if Qlt_le_dec 0 q then true else false
  | PInf => true
  | _ => false
  end.

(* [Array.prototype.sort] is stable; the model is the stable insertion
   sort, [x] moving behind [y] only when the comparison of the two is
   positive (NaN counts as 0).  Every stable sort gives this order when the
   comparison is an order; when it is not, the engine is free and the model
   is one of its choices. *)
Fixpoint insert (compare : value -> value -> completion num) (x : value)
  (sorted : list value) : completion (list value) :=
  match sorted with
  | [] => Return [x]
  | y :: rest =>
      c <- compare x y ;;
      if positive c
      then r <- insert compare x rest ;; Return (y :: r)
      else Return (x :: sorted)
  end.

Fixpoint sort (compare : value -> value -> completion num) (l : list value)
  : completion (list value) :=
  match l with
  | [] => Return []
  | x :: rest => s <- sort compare rest ;; insert compare x s
  end.

(* The callback of the second BxGy [forEach]; the state is
   [totalDiscount], [freeItemsGiven] and [freeItemsGivenDetails]. *)
Definition give_free (freeItemsNeeded : num)
  (state : num * num * list value) (item : value)
  : completion (num * num * list value) :=
  let '(totalDiscount, freeItemsGiven, freeItemsGivenDetails) := state in
  if is_false (Num.lt freeItemsGiven freeItemsNeeded) then Return state
  else
    quantity <- get item "quantity" ;;
    freeQuantity <-
      Math_min quantity (VNum (Num.sub freeItemsNeeded freeItemsGiven)) ;;
    price <- get item "price" ;;
    discount <- js_mul (VNum freeQuantity) price ;;
    product_id <- get item "product_id" ;;
    Return (Num.add totalDiscount discount,
            Num.add freeItemsGiven freeQuantity,
            freeItemsGivenDetails ++ [VObj [
              ("product_id", product_id);
              ("quantity", VNum freeQuantity);
              ("price", price);
              ("discount", VNum (_roundPrice (VNum discount)))]]).

Definition in_get_array (getArray item : value) : completion bool :=
  product_id <- get item "product_id" ;;
  Return (includes getArray product_id).

(* Steps 4 to 8 of calculateBxGyDiscount: the repetitions, the candidate
   free items, their order, the free units, the result. *)
Definition free_items
  (cartItems buyCount buyQuantity getQuantity getArray repetitionLimit : value)
  : completion value :=
  ratio <- js_div buyCount buyQuantity ;;
  let timesApplicable := Num.floor ratio in
  timesToApply <-
    Math_min (VNum timesApplicable)
             (or_else repetitionLimit (VNum timesApplicable)) ;;
  getItems <- filterM (in_get_array getArray) (elements cartItems) ;;
  if (List.length getItems =? 0)%nat then
    cartProducts <- product_ids cartItems ;;
    Return (VObj [
      ("applicable", VBool false);
      ("reason", VStr "No eligible items found in cart to get for free");
      ("discountAmount", VNum (Fin 0));
      ("breakdownInfo", VObj [
         ("getArray", getArray);
         ("cartProducts", VArr cartProducts)])])
  else
    sorted <- sort by_price getItems ;;
    freeItemsNeeded <- js_mul (VNum timesToApply) getQuantity ;;
    given <- foldM (give_free freeItemsNeeded) sorted
                   ((Fin 0), (Fin 0), []) ;;
    let '(totalDiscount, freeItemsGiven, freeItemsGivenDetails) := given in
    let rounded := _roundPrice (VNum totalDiscount) in
    Return (VObj [
      ("applicable", VBool true);
      ("discountAmount", VNum rounded);
      ("breakdownInfo", VObj [
         ("buyQuantityRequired", buyQuantity);
         ("buyQuantityFound", buyCount);
         ("getQuantityPerApplication", getQuantity);
         ("timesApplicable", VNum timesApplicable);
         ("repetitionLimit", repetitionLimit);
         ("timesApplied", VNum timesToApply);
         ("totalFreeItemsGiven", VNum freeItemsGiven);
         ("freeItemsGivenDetails", VArr freeItemsGivenDetails);
         ("totalDiscount", VNum rounded)])]).

(* Step 3: the result when the cart holds too few items to buy. *)
Definition too_few (buyArray buyQuantity buyCount : value)
  (buyItems : list value) : completion value :=
  required <- ToString buyQuantity ;;
  found <- ToString buyCount ;;
  shortfall <- js_sub buyQuantity buyCount ;;
  Return (VObj [
    ("applicable", VBool false);
    ("reason", VStr ("Need at least " ++ required
                       ++ " items from buy array, but found " ++ found));
    ("discountAmount", VNum (Fin 0));
    ("breakdownInfo", VObj [
       ("buyArray", buyArray);
       ("buyQuantityRequired", buyQuantity);
       ("buyQuantityFound", buyCount);
       ("shortfall", VNum shortfall);
       ("buyItemsInCart", VArr buyItems)])]).

Definition calculateBxGyDiscount_body
  (cartItems buyQuantity getQuantity buyArray getArray repetitionLimit : value)
  : completion value :=
  if no_items cartItems then Return cart_is_empty
  else if no_items buyArray then
    Return (VObj [("applicable", VBool false);
                  ("reason", VStr "No products defined in buy array");
                  ("discountAmount", VNum (Fin 0))])
  else if no_items getArray then
    Return (VObj [("applicable", VBool false);
                  ("reason", VStr "No products defined in get array");
                  ("discountAmount", VNum (Fin 0))])
  else if negb (truthy buyQuantity) || negb (truthy getQuantity)
  then Throw (Error "Invalid buy or get quantity")
  else
    counted <- foldM (count_buy buyArray) (elements cartItems)
                     (VNum (Fin 0), []) ;;
    let (buyCount, buyItems) := counted in
    short <- js_lt buyCount buyQuantity ;;
    if short then too_few buyArray buyQuantity buyCount buyItems
    else free_items cartItems buyCount buyQuantity getQuantity getArray
           repetitionLimit.

Definition calculateBxGyDiscount
  (cartItems buyQuantity getQuantity buyArray getArray repetitionLimit : value)
  : completion value :=
  try_catch
    (calculateBxGyDiscount_body cartItems buyQuantity getQuantity buyArray
       getArray repetitionLimit)
    calculation_error.

(* static calculateCartTotal(cartItems) *)
Definition calculateCartTotal (cartItems : value) : completion num :=
  if negb (truthy cartItems) || negb (Array_isArray cartItems)
  then Return (Fin 0)
  else
    sum <- foldM item_total (elements cartItems) (Fin 0) ;;
    Return (_roundPrice (VNum sum)).

(** Reading a result. *)
Definition field (key : string) (result : value) : value :=
  match result with
  | VObj props =>
      match own key props with Some x => x | None => VUndefined end
  | _ => VUndefined
  end.

Definition applicable (result : value) : value := field "applicable" result.
Definition discountAmount (result : value) : value :=
  field "discountAmount" result.
Definition reason (result : value) : value := field "reason" result.
Definition breakdownInfo (result : value) : value :=
  field "breakdownInfo" result.

End Language.

(** ** Well-formed arguments

    What a caller that respects the calculator's contract passes: cart
    lines [{ product_id, price, quantity }] with numeric price and quantity,
    conditions [{ minimum_cart_value, maximum_discount }] with the two
    fields optional, a discount [{ type, value }]. *)

Record CartLine : Type := mkLine {
  product_id : value;
  price : Q;
  quantity : Q
}.

Definition line_value (l : CartLine) : value :=
  VObj [("product_id", product_id l);
        ("price", VNum (Fin (price l)));
        ("quantity", VNum (Fin (quantity l)))].

Definition cart_value (cart : list CartLine) : value :=
  VArr (map line_value cart).

Record CartWiseConfig : Type := mkConditions {
  minimum_cart_value : option Q;
  maximum_discount : option Q
}.

Definition optional (name : string) (x : option Q) : list (string * value) :=
  match x with
  | Some q => [(name, VNum (Fin q))]
  | None => []
  end.

Definition conditions_value (c : CartWiseConfig) : value :=
  VObj (optional "minimum_cart_value" (minimum_cart_value c)
          ++ optional "maximum_discount" (maximum_discount c)).

Inductive DiscountType : Type := PERCENTAGE | FIXED_AMOUNT.

Record DiscountSpec : Type := mkDiscount {
  discount_type : DiscountType;
  discount_value : Q
}.

Definition type_value (t : DiscountType) : value :=
  match t with
  | PERCENTAGE => VStr "PERCENTAGE"
  | FIXED_AMOUNT => VStr "FIXED_AMOUNT"
  end.

Definition discount_config (d : DiscountSpec) : value :=
  VObj [("type", type_value (discount_type d));
        ("value", VNum (Fin (discount_value d)))].

Abbreviation number q := (VNum (Fin q)).

(* The total of a cart: the sum of price * quantity over its lines. *)
Definition total (cart : list CartLine) : Q :=
  fold_right (fun l acc => price l * quantity l + acc)%Q 0%Q cart.

(** ** A host to run the calculator on

    Numbers print in decimal notation, with at most seventeen digits after
    the point; a text reads as a number when it is an optional sign, digits,
    and an optional fraction. *)

Module Sample.

Definition digit (n : Z) : ascii := ascii_of_nat (48 + Z.to_nat n).

Fixpoint digits_of (fuel : nat) (n : Z) (acc : string) : string :=
  match fuel with
  | O => acc
  | S fuel' =>
      let acc' := String (digit (n mod 10)) acc in
      if (n <? 10)%Z then acc' else digits_of fuel' (n / 10) acc'
  end.

Definition natural (n : Z) : string :=
  digits_of (S (Z.to_nat (Z.log2 n))) n "".

(* The digits of [r / d] after the point, for [0 <= r < d]. *)
Fixpoint fraction (fuel : nat) (r d : Z) : string :=
  match fuel with
  | O => ""
  | S fuel' =>
      if (r =? 0)%Z then ""
      else String (digit (10 * r / d)) (fraction fuel' ((10 * r) mod d) d)
  end.

Definition decimal (q : Q) : string :=
  let n := Z.abs (Qnum q) in
  let d := Zpos (Qden q) in
  let whole := natural (n / d) in
  let part := fraction 17 (n mod d) d in
  ((if (Qnum q <? 0)%Z then "-" else "")
     ++ whole ++ (if String.eqb part "" then "" else "." ++ part))%string.

Definition print (x : num) : string :=
  match x with
  | Fin q => decimal q
  | NaN => "NaN"
  | PInf => "Infinity"
  | NInf => "-Infinity"
  end.

Definition digit_value (c : ascii) : option Z :=
  let n := Z.of_nat (nat_of_ascii c) in
  if ((48 <=? n) && (n <=? 57))%Z then Some (n - 48)%Z else None.

(* Reads [digits] or [digits.digits]; [scale] is 0 before the point and
   the power of ten reached after it; [seen] tells that a digit was read. *)
Fixpoint read (s : string) (acc scale : Z) (seen : bool) : option Q :=
  match s with
  | EmptyString =>
      if seen then Some (Qred (acc # Z.to_pos (Z.max 1 scale))) else None
  | String c rest =>
      if Ascii.eqb c "."%char then
        if (scale =? 0)%Z then read rest acc 1 seen else None
      else
        match digit_value c with
        | Some n => read rest (10 * acc + n) (10 * scale) true
        | None => None
        end
  end.

Definition parse (s : string) : num :=
  match s with
  | EmptyString => Fin 0
  | String c rest =>
      if Ascii.eqb c "-"%char then
        match read rest 0 0 false with
        | Some q => Fin (Qred (- q))
        | None => NaN
        end
      else
        match read s 0 0 false with
        | Some q => Fin q
        | None => NaN
        end
  end.

#[export] Instance host : Host :=
  {| NumberToString := print; StringToNumber := parse |}.

End Sample.

(** ** The rounding helper on IEEE doubles

    [_roundPrice] once more, for a [price] of type number, on binary64
    numbers: the product and the quotient round as the machine does, and
    [Math.round] is exact. *)

Module Binary64.

Local Open Scope float_scope.

(* floor (y + 1/2) for a finite [y], from its sign, mantissa and exponent. *)
Definition nearest_integer (y : float) : option Z :=
  match Prim2SF y with
  | S754_zero _ => Some 0%Z
  | S754_finite negative m e =>
      let n := if negative then Z.neg m else Z.pos m in
      Some (if (0 <=? e)%Z then (n * 2 ^ e)%Z
            else ((2 * n + 2 ^ (- e)) / 2 ^ (1 - e))%Z)
  | _ => None
  end.

(* An integer below 2^53 in absolute value, as a double. *)
Definition of_integer (n : Z) : float :=
  match n with
  | Z0 => 0
  | Zpos _ => of_uint63 (Uint63.of_Z n)
  | Zneg p => - of_uint63 (Uint63.of_Z (Zpos p))
  end.

(* Math.round: the nearest integer, a tie going towards +Infinity; a zero
   result keeps the sign of [y].  From 2^52 on every double is an integer
   already; NaN and the infinities are returned as they are. *)
Definition Math_round (y : float) : float :=
  if abs y <? 4503599627370496 then
    match nearest_integer y with
    | Some Z0 => if y <? 0 then -0 else if 1 / y <? 0 then -0 else 0
    | Some n => of_integer n
    | None => y
    end
  else y.

Definition _roundPrice (price : float) : float :=
  Math_round (price * 100) / 100.

End Binary64.

(** ** The calculator on IEEE doubles

    The evaluators that compute amounts, given a second time with the
    numbers of the engine: a number is a binary64 double, and [+], [-], [*]
    and [/] round to the nearest double as the machine does.  Here are the
    rounding helper, the cart-wise and the product-wise evaluator, the cart
    total and the cart-wise check of the service; the properties about
    amounts, totals and comparisons of totals are stated on these. *)

Module Double.

#[local] Set Warnings "-register-all".

Inductive value : Type :=
| VUndefined
| VNull
| VBool (b : bool)
| VNum (x : float)
| VStr (s : string)
| VArr (items : list value)
| VObj (props : list (string * value)).

(** What the engine supplies and the model leaves open: the decimal text of
    a number and the number a text denotes. *)
Class Host : Type := {
  NumberToString : float -> string;
  StringToNumber : string -> float
}.

Section Language.

Context {host : Host}.

Fixpoint own (key : string) (props : list (string * value)) : option value :=
  match props with
  | [] => None
  | (k, v) :: rest => if String.eqb k key then Some v else own key rest
  end.

(* A number is falsy when it is NaN, 0 or -0. *)
Definition nonzero (x : float) : bool :=
  negb (PrimFloat.is_nan x || PrimFloat.eqb x 0%float).

(* Boolean coercion of a condition. *)
Definition truthy (v : value) : bool :=
  match v with
  | VUndefined | VNull => false
  | VBool b => b
  | VNum x => nonzero x
  | VStr s => negb (String.eqb s "")
  | VArr _ | VObj _ => true
  end.

(* [a || b] with [b] free of effects. *)
Definition or_else (a b : value) : value := if truthy a then a else b.

Definition Array_isArray (v : value) : bool :=
  match v with
  | VArr _ => true
  | _ => false
  end.

Definition elements (v : value) : list value :=
  match v with
  | VArr items => items
  | _ => []
  end.

(* [v.key] for the keys the calculator reads; none of them is inherited
   from a prototype, so on anything but [null] and [undefined] the read
   gives the own property or [undefined]. *)
Definition get (v : value) (key : string) : completion value :=
  match v with
  | VUndefined =>
      Throw (TypeError ("Cannot read properties of undefined (reading '"
                          ++ key ++ "')"))
  | VNull =>
      Throw (TypeError ("Cannot read properties of null (reading '"
                          ++ key ++ "')"))
  | VObj props =>
      Return (match own key props with Some x => x | None => VUndefined end)
  | _ => Return VUndefined
  end.

(* String conversion, as for the exact numbers. *)
Fixpoint ToString (v : value) : completion string :=
  match v with
  | VUndefined => Return "undefined"
  | VNull => Return "null"
  | VBool true => Return "true"
  | VBool false => Return "false"
  | VNum x => Return (NumberToString x)
  | VStr s => Return s
  | VArr items =>
      (fix join (l : list value) : completion string :=
         match l with
         | [] => Return ""
         | e :: rest =>
             s <- (match e with
                   | VUndefined | VNull => Return ""
                   | _ => ToString e
                   end) ;;
             match rest with
             | [] => Return s
             | _ => t <- join rest ;; Return (s ++ "," ++ t)%string
             end
         end) items
  | VObj props =>
      match own "toString" props with
      | Some _ => Throw (TypeError "Cannot convert object to primitive value")
      | None => Return "[object Object]"
      end
  end.

Definition ToPrimitive (v : value) : completion value :=
  match v with
  | VArr _ | VObj _ => s <- ToString v ;; Return (VStr s)
  | _ => Return v
  end.

Definition ToNumber (v : value) : completion float :=
  p <- ToPrimitive v ;;
  Return match p with
         | VNull => 0%float
         | VBool true => 1%float
         | VBool false => 0%float
         | VNum x => x
         | VStr s => StringToNumber s
         | _ => PrimFloat.nan
         end.

Definition js_mul (a b : value) : completion float :=
  x <- ToNumber a ;; y <- ToNumber b ;; Return (x * y)%float.

Definition js_div (a b : value) : completion float :=
  x <- ToNumber a ;; y <- ToNumber b ;; Return (x / y)%float.

Definition js_sub (a b : value) : completion float :=
  x <- ToNumber a ;; y <- ToNumber b ;; Return (x - y)%float.

(* [a + b]: concatenation as soon as one side is a text. *)
Definition js_add (a b : value) : completion value :=
  pa <- ToPrimitive a ;;
  pb <- ToPrimitive b ;;
  match pa, pb with
  | VStr _, _ | _, VStr _ =>
      sa <- ToString pa ;; sb <- ToString pb ;; Return (VStr (sa ++ sb))
  | _, _ =>
      x <- ToNumber pa ;; y <- ToNumber pb ;; Return (VNum (x + y)%float)
  end.

(* [<], [>] and [>=]: two texts compare as texts, anything else as
   numbers; a comparison with NaN is false. *)
Definition js_lt (a b : value) : completion bool :=
  pa <- ToPrimitive a ;; pb <- ToPrimitive b ;;
  match pa, pb with
  | VStr s, VStr t => Return (String.ltb s t)
  | _, _ => x <- ToNumber pa ;; y <- ToNumber pb ;; Return (x <? y)%float
  end.

Definition js_gt (a b : value) : completion bool :=
  pa <- ToPrimitive a ;; pb <- ToPrimitive b ;;
  match pa, pb with
  | VStr s, VStr t => Return (String.ltb t s)
  | _, _ => x <- ToNumber pa ;; y <- ToNumber pb ;; Return (y <? x)%float
  end.

Definition js_ge (a b : value) : completion bool :=
  pa <- ToPrimitive a ;; pb <- ToPrimitive b ;;
  match pa, pb with
  | VStr s, VStr t => Return (negb (String.ltb s t))
  | _, _ => x <- ToNumber pa ;; y <- ToNumber pb ;; Return (y <=? x)%float
  end.

(* [v === s] for a text [s] *)
Definition is_string (v : value) (s : string) : bool :=
  match v with
  | VStr t => String.eqb t s
  | _ => false
  end.

(* [v === 0] *)
Definition is_zero (v : value) : bool :=
  match v with
  | VNum x => PrimFloat.eqb x 0%float
  | _ => false
  end.

(* The equality of [Array.prototype.includes]: NaN equals NaN, 0 equals
   -0; two objects are never the same reference. *)
Definition SameValueZero (a b : value) : bool :=
  match a, b with
  | VUndefined, VUndefined => true
  | VNull, VNull => true
  | VBool x, VBool y => Bool.eqb x y
  | VNum x, VNum y =>
      if PrimFloat.is_nan x then PrimFloat.is_nan y else PrimFloat.eqb x y
  | VStr s, VStr t => String.eqb s t
  | _, _ => false
  end.

Definition includes (array x : value) : bool :=
  existsb (fun e => SameValueZero e x) (elements array).

(* static _roundPrice(price) *)
Definition _roundPrice (price : value) : float :=
  match price with
  | VNum x => Binary64._roundPrice x
  | _ => 0%float
  end.

Definition no_items (v : value) : bool :=
  negb (truthy v) || negb (Array_isArray v)
  || (List.length (elements v) =? 0)%nat.

(* The handler of the evaluators (its console.error left out). *)
Definition calculation_error (e : error) : completion value :=
  Return (VObj [("applicable", VBool false);
                ("reason", VStr ("Calculation error: " ++ message e));
                ("discountAmount", VNum 0%float)]).

Definition cart_is_empty : value :=
  VObj [("applicable", VBool false);
        ("reason", VStr "Cart is empty");
        ("discountAmount", VNum 0%float)].

(* (sum, item) => sum + (item.price || 0) * (item.quantity || 0) *)
Definition item_total (sum : float) (item : value) : completion float :=
  price <- get item "price" ;;
  quantity <- get item "quantity" ;;
  itemTotal <- js_mul (or_else price (VNum 0%float))
                      (or_else quantity (VNum 0%float)) ;;
  Return (sum + itemTotal)%float.

(* Steps 4 to 7 of calculateCartWiseDiscount: the raw discount, the cap,
   the rounding, the result. *)
Definition cart_discount (cartTotal : float)
  (couponConditions discountConfig : value) : completion value :=
  type <- get discountConfig "type" ;;
  discountAmount <-
    (if is_string type "PERCENTAGE" then
       percentage <- get discountConfig "value" ;;
       product <- js_mul (VNum cartTotal) percentage ;;
       Return (VNum (product / 100)%float)
     else if is_string type "FIXED_AMOUNT" then
       get discountConfig "value"
     else
       shown <- ToString type ;;
       Throw (Error ("Unknown discount type: " ++ shown))) ;;
  maximumDiscount <- get couponConditions "maximum_discount" ;;
  capped <- (if truthy maximumDiscount
             then js_gt discountAmount maximumDiscount
             else Return false) ;;
  value <- get discountConfig "value" ;;
  if capped then
    shown <- ToString maximumDiscount ;;
    Return (VObj [
      ("applicable", VBool true);
      ("discountAmount", VNum (_roundPrice maximumDiscount));
      ("reason", VStr ("Discount capped at maximum of Rs." ++ shown));
      ("breakdownInfo", VObj [
         ("cartTotal", VNum (_roundPrice (VNum cartTotal)));
         ("discountType", type);
         ("discountValue", value);
         ("calculatedDiscount", VNum (_roundPrice discountAmount));
         ("maximumCap", maximumDiscount);
         ("finalDiscount", VNum (_roundPrice maximumDiscount))])])
  else
    let rounded := _roundPrice discountAmount in
    Return (VObj [
      ("applicable", VBool true);
      ("discountAmount", VNum rounded);
      ("breakdownInfo", VObj [
         ("cartTotal", VNum (_roundPrice (VNum cartTotal)));
         ("discountType", type);
         ("discountValue", value);
         ("finalDiscount", VNum rounded);
         ("finalAmount",
          VNum (_roundPrice (VNum (cartTotal - rounded)%float)))])]).

(* Step 3: the result below the minimum cart value. *)
Definition below_minimum (cartTotal : float) (minimumValue : value)
  : completion value :=
  shown <- ToString (VNum (_roundPrice (VNum cartTotal))) ;;
  needed <- ToString minimumValue ;;
  shortfall <- js_sub minimumValue (VNum cartTotal) ;;
  Return (VObj [
    ("applicable", VBool false);
    ("reason", VStr ("Cart total Rs." ++ shown
                       ++ " is below minimum Rs." ++ needed));
    ("discountAmount", VNum 0%float);
    ("breakdownInfo", VObj [
       ("cartTotal", VNum (_roundPrice (VNum cartTotal)));
       ("minimumRequired", minimumValue);
       ("shortfall", VNum (_roundPrice (VNum shortfall)))])]).

Definition calculateCartWiseDiscount_body
  (cartItems couponConditions discountConfig : value) : completion value :=
  if no_items cartItems then Return cart_is_empty
  else if negb (truthy couponConditions) || negb (truthy discountConfig)
  then Throw (Error "Invalid coupon conditions or discount config")
  else
    cartTotal <- foldM item_total (elements cartItems) 0%float ;;
    minimum <- get couponConditions "minimum_cart_value" ;;
    let minimumValue := or_else minimum (VNum 0%float) in
    below <- js_lt (VNum cartTotal) minimumValue ;;
    if below then below_minimum cartTotal minimumValue
    else cart_discount cartTotal couponConditions discountConfig.

(* static calculateCartWiseDiscount(cartItems, couponConditions,
   discountConfig) *)
Definition calculateCartWiseDiscount
  (cartItems couponConditions discountConfig : value) : completion value :=
  try_catch
    (calculateCartWiseDiscount_body cartItems couponConditions discountConfig)
    calculation_error.

(* The callback of the product-wise [forEach]; the state is
   [totalDiscount] and [discountedItems]. *)
Definition discount_item (applicableProducts discountConfig : value)
  (state : float * list value) (item : value)
  : completion (float * list value) :=
  let (totalDiscount, discountedItems) := state in
  product_id <- get item "product_id" ;;
  if includes applicableProducts product_id then
    price <- get item "price" ;;
    quantity <- get item "quantity" ;;
    itemTotal <- js_mul price quantity ;;
    type <- get discountConfig "type" ;;
    itemDiscount <-
      (if is_string type "PERCENTAGE" then
         value <- get discountConfig "value" ;;
         product <- js_mul (VNum itemTotal) value ;;
         Return (product / 100)%float
       else if is_string type "FIXED_AMOUNT" then
         value <- get discountConfig "value" ;;
         js_mul value quantity
       else Return 0%float) ;;
    Return ((totalDiscount + itemDiscount)%float,
            discountedItems ++ [VObj [
              ("product_id", product_id);
              ("quantity", quantity);
              ("price", price);
              ("itemTotal", VNum itemTotal);
              ("discount", VNum (_roundPrice (VNum itemDiscount)))]])
  else Return state.

Definition product_ids (cartItems : value) : completion (list value) :=
  mapM (fun item => get item "product_id") (elements cartItems).

Definition calculateProductWiseDiscount_body
  (cartItems applicableProducts discountConfig : value) : completion value :=
  if no_items cartItems then Return cart_is_empty
  else if no_items applicableProducts then
    Return (VObj [
      ("applicable", VBool false);
      ("reason", VStr "No applicable products defined for this coupon");
      ("discountAmount", VNum 0%float)])
  else if negb (truthy discountConfig)
  then Throw (Error "Invalid discount config")
  else
    state <- foldM (discount_item applicableProducts discountConfig)
                   (elements cartItems) (0%float, []) ;;
    let (totalDiscount, discountedItems) := state in
    if PrimFloat.eqb totalDiscount 0%float then
      cartProducts <- product_ids cartItems ;;
      Return (VObj [
        ("applicable", VBool false);
        ("reason", VStr "No applicable products found in your cart");
        ("discountAmount", VNum 0%float);
        ("breakdownInfo", VObj [
           ("applicableProducts", applicableProducts);
           ("cartProducts", VArr cartProducts);
           ("message",
            VStr "Cart does not contain any of the eligible products")])])
    else
      let rounded := _roundPrice (VNum totalDiscount) in
      type <- get discountConfig "type" ;;
      value <- get discountConfig "value" ;;
      Return (VObj [
        ("applicable", VBool true);
        ("discountAmount", VNum rounded);
        ("breakdownInfo", VObj [
           ("discountType", type);
           ("discountValue", value);
           ("discountedItems", VArr discountedItems);
           ("totalDiscount", VNum rounded)])]).

(* static calculateProductWiseDiscount(cartItems, applicableProducts,
   discountConfig) *)
Definition calculateProductWiseDiscount
  (cartItems applicableProducts discountConfig : value) : completion value :=
  try_catch
    (calculateProductWiseDiscount_body cartItems applicableProducts
       discountConfig)
    calculation_error.

(* static calculateCartTotal(cartItems) *)
Definition calculateCartTotal (cartItems : value) : completion float :=
  if negb (truthy cartItems) || negb (Array_isArray cartItems)
  then Return 0%float
  else
    sum <- foldM item_total (elements cartItems) 0%float ;;
    Return (_roundPrice (VNum sum)).

(* (sum, item) => sum + item.price * item.quantity *)
Definition add_line (sum item : value) : completion value :=
  price <- get item "price" ;;
  quantity <- get item "quantity" ;;
  product <- js_mul price quantity ;;
  js_add sum (VNum product).

(* [cartItems.reduce(...)] is a call on an array, or fails. *)
Definition reduced (cartItems : value) : completion (list value) :=
  match cartItems with
  | VArr items => Return items
  | VUndefined =>
      Throw (TypeError "Cannot read properties of undefined (reading 'reduce')")
  | VNull =>
      Throw (TypeError "Cannot read properties of null (reading 'reduce')")
  | _ => Throw (TypeError "cartItems.reduce is not a function")
  end.

(* static _checkCartWise(coupon, cartItems), of CouponService *)
Definition _checkCartWise (coupon cartItems : value) : completion value :=
  items <- reduced cartItems ;;
  total <- foldM add_line items (VNum 0%float) ;;
  conditions <- get coupon "conditions" ;;
  minimum <- get conditions "minimum_cart_value" ;;
  enough <- js_ge total minimum ;;
  if enough then Return (VObj [("applicable", VBool true)])
  else
    shown <- ToString total ;;
    conditions <- get coupon "conditions" ;;
    minimum <- get conditions "minimum_cart_value" ;;
    needed <- ToString minimum ;;
    Return (VObj [
      ("applicable", VBool false);
      ("reason", VStr ("Cart total Rs." ++ shown ++ " below minimum Rs."
                         ++ needed))]).

(** Reading a result. *)
Definition field (key : string) (result : value) : value :=
  match result with
  | VObj props =>
      match own key props with Some x => x | None => VUndefined end
  | _ => VUndefined
  end.

Definition applicable (result : value) : value := field "applicable" result.
Definition discountAmount (result : value) : value :=
  field "discountAmount" result.
Definition reason (result : value) : value := field "reason" result.
Definition breakdownInfo (result : value) : value :=
  field "breakdownInfo" result.

End Language.

(** Well-formed arguments, as for the exact numbers: cart lines with a
    numeric price and quantity, conditions with two optional numbers, a
    discount of one of the two types. *)

Record CartLine : Type := mkLine {
  product_id : value;
  price : float;
  quantity : float
}.

Definition line_value (l : CartLine) : value :=
  VObj [("product_id", product_id l);
        ("price", VNum (price l));
        ("quantity", VNum (quantity l))].

Definition cart_value (cart : list CartLine) : value :=
  VArr (map line_value cart).

Record CartWiseConfig : Type := mkConditions {
  minimum_cart_value : option float;
  maximum_discount : option float
}.

Definition optional (name : string) (x : option float)
  : list (string * value) :=
  match x with
  | Some m => [(name, VNum m)]
  | None => []
  end.

Definition conditions_value (c : CartWiseConfig) : value :=
  VObj (optional "minimum_cart_value" (minimum_cart_value c)
          ++ optional "maximum_discount" (maximum_discount c)).

Record DiscountSpec : Type := mkDiscount {
  discount_type : DiscountType;
  discount_value : float
}.

Definition type_value (t : DiscountType) : value :=
  match t with
  | PERCENTAGE => VStr "PERCENTAGE"
  | FIXED_AMOUNT => VStr "FIXED_AMOUNT"
  end.

Definition discount_config (d : DiscountSpec) : value :=
  VObj [("type", type_value (discount_type d));
        ("value", VNum (discount_value d))].

Definition line (id : string) (p q : float) : CartLine :=
  mkLine (VStr id) p q.

(** The amounts of the evaluators, operation by operation. *)

(* [x || 0] *)
Definition or_zero (x : float) : float := if nonzero x then x else 0%float.

(* The cart total of the cart-wise evaluator and of calculateCartTotal:
   the lines are added in cart order, from 0. *)
Definition total (cart : list CartLine) : float :=
  fold_left (fun sum l => (sum + or_zero (price l) * or_zero (quantity l))%float)
    cart 0%float.

(* The total of the service's check, which reads price and quantity as they
   are. *)
Definition plain_total (cart : list CartLine) : float :=
  fold_left (fun sum l => (sum + price l * quantity l)%float) cart 0%float.

(* minimum_cart_value || 0 *)
Definition minimum (c : CartWiseConfig) : float :=
  match minimum_cart_value c with
  | Some m => or_zero m
  | None => 0%float
  end.

Definition raw_discount (d : DiscountSpec) (T : float) : float :=
  match discount_type d with
  | PERCENTAGE => (T * discount_value d / 100)%float
  | FIXED_AMOUNT => discount_value d
  end.

(* maximumDiscount && discountAmount > maximumDiscount *)
Definition capped (c : CartWiseConfig) (raw : float) : bool :=
  match maximum_discount c with
  | Some M => nonzero M && (M <? raw)%float
  | None => false
  end.

Definition eligible (ids : list value) (l : CartLine) : bool :=
  includes (VArr ids) (product_id l).

Definition line_discount (d : DiscountSpec) (l : CartLine) : float :=
  match discount_type d with
  | PERCENTAGE => (price l * quantity l * discount_value d / 100)%float
  | FIXED_AMOUNT => (discount_value d * quantity l)%float
  end.

(* The discounts of the lines, added in cart order, from 0. *)
Definition discount_sum (d : DiscountSpec) (lines : list CartLine) : float :=
  fold_left (fun sum l => (sum + line_discount d l)%float) lines 0%float.

Definition discounted_item (d : DiscountSpec) (l : CartLine) : value :=
  VObj [("product_id", product_id l);
        ("quantity", VNum (quantity l));
        ("price", VNum (price l));
        ("itemTotal", VNum (price l * quantity l)%float);
        ("discount", VNum (Binary64._roundPrice (line_discount d l)))].

(** The exact value of a double, for the sentences of the specification
    that speak of real numbers. *)

Definition exact (x : float) : Q :=
  match Prim2SF x with
  | S754_finite negative m e =>
      let n := if negative then Z.neg m else Z.pos m in
      if (0 <=? e)%Z then inject_Z (n * 2 ^ e)
      else Qmake n (Z.to_pos (2 ^ (- e)))
  | _ => 0%Q
  end.

(* The double nearest to [n / 100]: what a decimal text with two places
   reads as. *)
Definition cents (n : Z) : float :=
  (Binary64.of_integer n / 100)%float.

(* A cart item the validation of the handlers accepts: an object with a
   truthy product_id, a numeric price >= 0 and a numeric quantity > 0. *)
Definition acceptable (item : value) : bool :=
  match item with
  | VObj props =>
      match own "product_id" props, own "price" props, own "quantity" props
      with
      | Some id, Some (VNum p), Some (VNum q) =>
          truthy id && (0 <=? p)%float && (0 <? q)%float
      | _, _, _ => false
      end
  | _ => false
  end.

(* A number that is not below zero: NaN, or >= 0 (+Infinity included). *)
Definition never_negative (x : float) : bool :=
  PrimFloat.is_nan x || (0 <=? x)%float.

(** A host to run on: a double prints as its exact decimal value (to
    seventeen places), and a decimal text reads as the nearest double when
    its digits fit 2^53. *)

Definition print (x : float) : string :=
  match Prim2SF x with
  | S754_nan => "NaN"
  | S754_infinity false => "Infinity"
  | S754_infinity true => "-Infinity"
  | _ => Sample.decimal (exact x)
  end.

Definition parse (s : string) : float :=
  match Sample.parse s with
  | Fin q =>
      (Binary64.of_integer (Qnum q) / Binary64.of_integer (Zpos (Qden q)))%float
  | NaN => PrimFloat.nan
  | PInf => PrimFloat.infinity
  | NInf => PrimFloat.neg_infinity
  end.

#[export] Instance sample_host : Host :=
  {| NumberToString := print; StringToNumber := parse |}.

End Double.

(* The sign of a double that is not below zero: NaN, a zero of either sign,
   +Infinity or a positive number. *)
Definition not_below_zero (x : spec_float) : bool :=
  match x with
  | S754_nan | S754_zero _ => true
  | S754_infinity negative | S754_finite negative _ _ => negb negative
  end.

(** * Specification

    The notions the properties are stated with. *)

Local Open Scope Q_scope.

(* The hundredth nearest to [q], a tie going up. *)
Definition round2 (q : Q) : Q :=
  Qred (inject_Z (Qfloor (q * 100 + (1 # 2))) / 100).

(* minimum_cart_value, 0 when absent *)
Definition minimum (c : CartWiseConfig) : Q :=
  match minimum_cart_value c with Some m => m | None => 0 end.

Definition raw_discount (d : DiscountSpec) (T : Q) : Q :=
  match discount_type d with
  | PERCENTAGE => T * discount_value d / 100
  | FIXED_AMOUNT => discount_value d
  end.

(* A cart line is eligible when its product id is in the list. *)
Definition eligible (ids : list value) (l : CartLine) : bool :=
  includes (VArr ids) (product_id l).

Definition line_discount (d : DiscountSpec) (l : CartLine) : Q :=
  match discount_type d with
  | PERCENTAGE => price l * quantity l * discount_value d / 100
  | FIXED_AMOUNT => discount_value d * quantity l
  end.

Definition discount_sum (d : DiscountSpec) (lines : list CartLine) : Q :=
  fold_right (fun l acc => line_discount d l + acc) 0 lines.

Definition discounted_item (d : DiscountSpec) (l : CartLine) : value :=
  VObj [("product_id", product_id l);
        ("quantity", number (quantity l));
        ("price", number (price l));
        ("itemTotal", number (Qred (price l * quantity l)));
        ("discount", number (round2 (line_discount d l)))].












(* The result shape of the three evaluators: an object with a boolean
   [applicable] and a numeric [discountAmount]; when [applicable] is false
   the amount is 0 and a [reason] text is present. *)
Definition EvaluationResult (r : value) : Prop :=
  exists (props : list (string * value)) (b : bool) (amount : num),
    r = VObj props
    /\ applicable r = VBool b
    /\ discountAmount r = VNum amount
    /\ (b = false -> amount = Fin 0 /\ exists text, reason r = VStr text).

Definition calculation_error_result (e : error) : value :=
  VObj [("applicable", VBool false);
        ("reason", VStr ("Calculation error: " ++ message e));
        ("discountAmount", number 0)].



Definition line (id : string) (p q : Q) : CartLine := mkLine (VStr id) p q.

(** The sentences of the specification that the calculator does not satisfy,
    as they are written. *)

Section Claimed.

Context {host : Host}.


(* "removing an ineligible line never changes the result" *)
Definition removing_ineligible_line_changes_nothing
  (before after : list CartLine) (L : CartLine) (ids : list value)
  (d : DiscountSpec) : Prop :=
  eligible ids L = false ->
  calculateProductWiseDiscount (cart_value (before ++ L :: after)) (VArr ids)
    (discount_config d)
  = calculateProductWiseDiscount (cart_value (before ++ after)) (VArr ids)
      (discount_config d).

End Claimed.

(* "round2(round2(x)) == round2(x)", on doubles *)
Definition rounding_is_idempotent_on_doubles (x : float) : Prop :=
  PrimFloat.eqb (Binary64._roundPrice (Binary64._roundPrice x))
    (Binary64._roundPrice x) = true.

(** ** The sentences about amounts, as written, on doubles

    The specification speaks of real numbers: of the sum of price * quantity
    and of its rounding to two decimals.  Each sentence below takes the
    numbers the calculator receives, which are doubles, at their exact
    values. *)

Section ClaimedOnDoubles.

Context {host : Double.Host}.



(* "(unitPrice*quantity) * amount/100" and "amount * quantity" *)
Definition exact_line_discount (d : Double.DiscountSpec)
  (l : Double.CartLine) : Q :=
  match Double.discount_type d with
  | PERCENTAGE =>
      Double.exact (Double.price l) * Double.exact (Double.quantity l)
      * Double.exact (Double.discount_value d) / 100
  | FIXED_AMOUNT =>
      Double.exact (Double.discount_value d)
      * Double.exact (Double.quantity l)
  end.

Definition exact_discount_sum (d : Double.DiscountSpec)
  (lines : list Double.CartLine) : Q :=
  fold_right (fun l sum => exact_line_discount d l + sum) 0 lines.

(* The double nearest to a fraction whose numerator and denominator are
   below 2^53. *)
Definition nearest_double (q : Q) : float :=
  (Binary64.of_integer (Qnum q) / Binary64.of_integer (Zpos (Qden q)))%float.


(* "its discountAmount is the 2-decimal rounding of the sum of these
   per-line discounts" *)
Definition productwise_discount_is_exact_sum_rounded
  (C : list Double.CartLine) (ids : list Double.value)
  (d : Double.DiscountSpec) : Prop :=
  C <> [] -> ids <> [] ->
  exists r,
    Double.calculateProductWiseDiscount (Double.cart_value C)
      (Double.VArr ids) (Double.discount_config d) = Return r
    /\ (Double.applicable r = Double.VBool true ->
        Double.discountAmount r
        = Double.VNum
            (nearest_double
               (round2 (exact_discount_sum d
                          (filter (Double.eligible ids) C))))).

End ClaimedOnDoubles.

(** * The other helpers and the callers

    What surrounds the three evaluators: the two remaining helpers of the
    calculator, the checks [CouponService] makes on a cart before an
    evaluator is called, and the two handlers of the controller that
    validate a cart before they call the service.  The database is not
    modelled: the service a handler awaits is a parameter of the handler,
    and the functions of the service that query the database are left
    out. *)

Section Callers.

Context {host : Host}.

(* [a && b] *)
Definition and_then (a : value) (b : completion value) : completion value :=
  if truthy a then b else Return a.

(* typeof v === 'number' *)
Definition is_number (v : value) : bool :=
  match v with
  | VNum _ => true
  | _ => false
  end.

(* item.product_id && typeof item.price === 'number' && item.price >= 0 &&
   typeof item.quantity === 'number' && item.quantity > 0 *)
Definition required_fields (item : value) : completion value :=
  product_id <- get item "product_id" ;;
  and_then product_id
    (price <- get item "price" ;;
     and_then (VBool (is_number price))
       (price <- get item "price" ;;
        not_negative <- js_ge price (VNum (Fin 0)) ;;
        and_then (VBool not_negative)
          (quantity <- get item "quantity" ;;
           and_then (VBool (is_number quantity))
             (quantity <- get item "quantity" ;;
              above_zero <- js_gt quantity (VNum (Fin 0)) ;;
              Return (VBool above_zero))))).

(* static _isValidCartItem(item) *)
Definition _isValidCartItem (item : value) : completion value :=
  and_then item (required_fields item).

(* Array.prototype.every *)
Fixpoint every (f : value -> completion value) (l : list value)
  : completion bool :=
  match l with
  | [] => Return true
  | x :: rest =>
      r <- f x ;; if truthy r then every f rest else Return false
  end.

(* Array.prototype.some *)
Fixpoint some (f : value -> completion value) (l : list value)
  : completion bool :=
  match l with
  | [] => Return false
  | x :: rest =>
      r <- f x ;; if truthy r then Return true else some f rest
  end.

(* The elements of the array on which [target.method(...)] is called, for a
   method of [Array.prototype]; on anything but an array the call fails.
   [expression] is the text of [target], for the message. *)
Definition array_of (target : value) (expression method : string)
  : completion (list value) :=
  match target with
  | VArr items => Return items
  | VUndefined =>
      Throw (TypeError ("Cannot read properties of undefined (reading '"
                          ++ method ++ "')"))
  | VNull =>
      Throw (TypeError ("Cannot read properties of null (reading '"
                          ++ method ++ "')"))
  | _ =>
      Throw (TypeError (expression ++ "." ++ method ++ " is not a function"))
  end.

(* String.prototype.includes *)
Definition contains (whole part : string) : bool :=
  match String.index 0%nat part whole with
  | Some _ => true
  | None => false
  end.

(* [target.includes(argument)]: the method is looked up, then the argument
   is evaluated, then the method is called.  Arrays and texts have the
   method; [expression] is the text of [target], for the message. *)
Definition call_includes (target : value) (expression : string)
  (argument : completion value) : completion bool :=
  match target with
  | VUndefined =>
      Throw (TypeError
               "Cannot read properties of undefined (reading 'includes')")
  | VNull =>
      Throw (TypeError "Cannot read properties of null (reading 'includes')")
  | _ =>
      x <- argument ;;
      match target with
      | VArr _ => Return (includes target x)
      | VStr whole => part <- ToString x ;; Return (contains whole part)
      | _ => Throw (TypeError (expression ++ ".includes is not a function"))
      end
  end.

(* [v.length]; a text counts one unit for each of its characters. *)
Definition get_length (v : value) : completion value :=
  match v with
  | VArr items => Return (VNum (Fin (inject_Z (Z.of_nat (List.length items)))))
  | VStr s => Return (VNum (Fin (inject_Z (Z.of_nat (String.length s)))))
  | _ => get v "length"
  end.

End Callers.

(** ** The checks of the service (services/couponService.js) *)

Module Service.

Section Checks.

Context {host : Host}.

(* (sum, item) => sum + item.price * item.quantity *)
Definition add_line (sum item : value) : completion value :=
  price <- get item "price" ;;
  quantity <- get item "quantity" ;;
  product <- js_mul price quantity ;;
  js_add sum (VNum product).

(* static _checkCartWise(coupon, cartItems) *)
Definition _checkCartWise (coupon cartItems : value) : completion value :=
  items <- array_of cartItems "cartItems" "reduce" ;;
  total <- foldM add_line items (VNum (Fin 0)) ;;
  conditions <- get coupon "conditions" ;;
  minimum <- get conditions "minimum_cart_value" ;;
  enough <- js_ge total minimum ;;
  if enough then Return (VObj [("applicable", VBool true)])
  else
    shown <- ToString total ;;
    conditions <- get coupon "conditions" ;;
    minimum <- get conditions "minimum_cart_value" ;;
    needed <- ToString minimum ;;
    Return (VObj [
      ("applicable", VBool false);
      ("reason", VStr ("Cart total Rs." ++ shown ++ " below minimum Rs."
                         ++ needed))]).

(* item => coupon.conditions.<products>.includes(item.product_id) *)
Definition listed (coupon : value) (products : string) (item : value)
  : completion value :=
  conditions <- get coupon "conditions" ;;
  ids <- get conditions products ;;
  found <- call_includes ids ("coupon.conditions." ++ products)
             (get item "product_id") ;;
  Return (VBool found).

(* static _checkProductWise(coupon, cartItems) *)
Definition _checkProductWise (coupon cartItems : value) : completion value :=
  items <- array_of cartItems "cartItems" "some" ;;
  hasProduct <- some (listed coupon "applicable_products") items ;;
  if hasProduct then Return (VObj [("applicable", VBool true)])
  else Return (VObj [("applicable", VBool false);
                     ("reason", VStr "No applicable products in cart")]).

(* (sum, item) => sum + item.quantity *)
Definition add_quantity (sum item : value) : completion value :=
  quantity <- get item "quantity" ;;
  js_add sum quantity.

(* static _checkBxGy(coupon, cartItems) *)
Definition _checkBxGy (coupon cartItems : value) : completion value :=
  items <- array_of cartItems "cartItems" "filter" ;;
  bought <- filterM (fun item =>
                       found <- listed coupon "buy_from" item ;;
                       Return (truthy found)) items ;;
  buyCount <- foldM add_quantity bought (VNum (Fin 0)) ;;
  conditions <- get coupon "conditions" ;;
  buy_quantity <- get conditions "buy_quantity" ;;
  enough <- js_ge buyCount buy_quantity ;;
  if enough then Return (VObj [("applicable", VBool true)])
  else
    conditions <- get coupon "conditions" ;;
    buy_quantity <- get conditions "buy_quantity" ;;
    needed <- ToString buy_quantity ;;
    found <- ToString buyCount ;;
    Return (VObj [
      ("applicable", VBool false);
      ("reason", VStr ("Need " ++ needed ++ " items from buy array, found "
                         ++ found))]).

End Checks.

End Service.

(** ** The cart handlers of the controller
       (controllers/couponController.js)

    A handler is modelled by the response it sends for a request: the
    status and the JSON body.  Its logging is left out. *)

Record response : Type := respond {
  status : Z;
  json : value
}.

Module Controller.

Section Handlers.

Context {host : Host}.

Definition example_item : value :=
  VObj [("product_id", VStr "PROD_001");
        ("price", VNum (Fin 100));
        ("quantity", VNum (Fin 2))].

Definition invalid_structure : response :=
  respond 400%Z (VObj [
    ("success", VBool false);
    ("message", VStr "Invalid cart structure. Use one of these formats:");
    ("validFormats", VObj [
       ("format1_directArray", VArr [example_item]);
       ("format2_cartItems", VObj [("cartItems", VArr [example_item])]);
       ("format3_items", VObj [("items", VArr [example_item])])])]).

Definition empty_or_invalid : response :=
  respond 400%Z (VObj [("success", VBool false);
                       ("message", VStr "Cart is empty or invalid")]).

Definition invalid_item : response :=
  respond 400%Z (VObj [
    ("success", VBool false);
    ("message",
     VStr "Invalid cart item. Each item must have: product_id, price (>= 0), quantity (> 0)");
    ("example", example_item)]).

(* The response of a [catch] block. *)
Definition failure (code : Z) (e : error) : response :=
  respond code (VObj [("success", VBool false);
                      ("message", VStr (message e))]).

(* req.body && Array.isArray(req.body[key]) *)
Definition array_field (body : value) (key : string) : completion bool :=
  if truthy body
  then v <- get body key ;; Return (Array_isArray v)
  else Return false.

(* The cart of a request body in one of the three accepted formats. *)
Definition cart_of (body : value) : completion (option value) :=
  if Array_isArray body then Return (Some body)
  else
    format2 <- array_field body "cartItems" ;;
    if format2 then cartItems <- get body "cartItems" ;; Return (Some cartItems)
    else
      format3 <- array_field body "items" ;;
      if format3 then items <- get body "items" ;; Return (Some items)
      else Return None.

(* The part the two handlers share, from [let cartItems = []] to the
   validation of the items: the response it returns early with, or the
   cart it lets through. *)
Definition validated_cart (body : value) : completion (response + value) :=
  found <- cart_of body ;;
  match found with
  | None => Return (inl invalid_structure)
  | Some cartItems =>
      if negb (Array_isArray cartItems)
         || (List.length (elements cartItems) =? 0)%nat
      then Return (inl empty_or_invalid)
      else
        isValid <- every required_fields (elements cartItems) ;;
        if negb isValid then Return (inl invalid_item)
        else Return (inr cartItems)
  end.

(* static async getApplicableCoupons(req, res); [service] is
   CouponService.getApplicableCoupons, [body] is req.body. *)
Definition getApplicableCoupons (service : value -> completion value)
  (body : value) : response :=
  let attempt :=
    checked <- validated_cart body ;;
    match checked with
    | inl early => Return early
    | inr cartItems =>
        applicableCoupons <- service cartItems ;;
        found <- get_length applicableCoupons ;;
        shown <- ToString found ;;
        count <- get_length applicableCoupons ;;
        Return (respond 200%Z (VObj [
          ("success", VBool true);
          ("message", VStr ("Found " ++ shown ++ " applicable coupon(s)"));
          ("applicableCoupons", applicableCoupons);
          ("count", count)]))
    end in
  match attempt with
  | Return sent => sent
  | Throw error => failure 500%Z error
  end.

(* static async applyCouponToCart(req, res); [service] is
   CouponService.applyCouponToCart, [couponId] is req.params.id. *)
Definition applyCouponToCart (service : value -> value -> completion value)
  (couponId body : value) : response :=
  let attempt :=
    if negb (truthy couponId) then
      Return (respond 400%Z (VObj [("success", VBool false);
                                   ("message", VStr "Coupon ID is required")]))
    else
      checked <- validated_cart body ;;
      match checked with
      | inl early => Return early
      | inr cartItems =>
          result <- service couponId cartItems ;;
          Return (respond 200%Z (VObj [
            ("success", VBool true);
            ("message", VStr "Coupon applied successfully");
            ("result", result)]))
      end in
  match attempt with
  | Return sent => sent
  | Throw error =>
      if contains (message error) "not found" then failure 404%Z error
      else if contains (message error) "cannot be applied"
      then failure 400%Z error
      else failure 500%Z error
  end.

End Handlers.

End Controller.

(** ** Notions for the callers *)

(* A number that is [>= 0], and one that is [> 0]. *)
Definition not_negative (n : num) : bool :=
  match n with
  | Fin q => if Qlt_le_dec q 0 then false else true
  | PInf => true
  | _ => false
  end.

Definition above_zero (n : num) : bool :=
  match n with
  | Fin q => if Qlt_le_dec 0 q then true else false
  | PInf => true
  | _ => false
  end.

(* The cart items the validation accepts: an object with a truthy
   product_id, a numeric price >= 0 and a numeric quantity > 0. *)
Definition acceptable (item : value) : bool :=
  match item with
  | VObj props =>
      match own "product_id" props, own "price" props, own "quantity" props
      with
      | Some id, Some (VNum p), Some (VNum q) =>
          truthy id && not_negative p && above_zero q
      | _, _, _ => false
      end
  | _ => false
  end.

(* [null] and [undefined], on which a property read throws. *)
Definition nullish (v : value) : bool :=
  match v with
  | VUndefined | VNull => true
  | _ => false
  end.

(* The cart a request body carries: the body itself when it is an array,
   else its cartItems when that is an array, else its items when that is
   one. *)
Definition cart_items (body : value) : option (list value) :=
  match body with
  | VArr items => Some items
  | VObj props =>
      match own "cartItems" props with
      | Some (VArr items) => Some items
      | _ =>
          match own "items" props with
          | Some (VArr items) => Some items
          | _ => None
          end
      end
  | _ => None
  end.

(* The first item of a cart that the validation does not accept. *)
Definition first_rejected (items : list value) : option value :=
  find (fun item => negb (acceptable item)) items.

(* The cart of the integration tests, a service that finds no coupon and
   one that knows no coupon. *)
Definition test_cart : value :=
  VArr [line_value (line "PROD_001" 100 2); line_value (line "PROD_002" 50 1)].

Definition no_coupon (cartItems : value) : completion value :=
  Return (VArr []).

Definition not_found (couponId cartItems : value) : completion value :=
  Throw (Error "Coupon not found").

(** * Properties *)

(** ** Rounding to two decimals *)

Lemma round2_proper (a b : Q) : a == b -> round2 a = round2 b.
Proof.
  intro H. unfold round2. apply Qred_complete. now rewrite H.
Qed.

Lemma roundPrice_number (q : Q) : _roundPrice (number q) = Fin (round2 q).
Proof.
  unfold _roundPrice, round2, Num.round, Num.mul, Num.div, Num.fin.
  change (Qeq_bool 100 0) with false. cbv iota.
  f_equal. apply Qred_complete. now rewrite Qred_correct.
Qed.


(** ** The evaluators on well-formed arguments *)

Section Properties.

Context {host : Host}.

Lemma no_items_cart (C : list CartLine) :
  no_items (cart_value C) = match C with [] => true | _ => false end.
Proof. destruct C; reflexivity. Qed.

Lemma get_price (l : CartLine) :
  get (line_value l) "price" = Return (number (price l)).
Proof. reflexivity. Qed.

Lemma get_quantity (l : CartLine) :
  get (line_value l) "quantity" = Return (number (quantity l)).
Proof. reflexivity. Qed.

Lemma get_product_id (l : CartLine) :
  get (line_value l) "product_id" = Return (product_id l).
Proof. reflexivity. Qed.

Lemma or_zero (q : Q) :
  exists q', or_else (number q) (number 0) = number q' /\ q' == q.
Proof.
  unfold or_else. cbn [truthy]. destruct (Qeq_bool q 0) eqn:E; cbn [negb].
  - exists 0. split; [reflexivity|]. apply Qeq_bool_eq in E. now rewrite E.
  - exists q. split; reflexivity.
Qed.

Lemma js_mul_numbers (a b : Q) :
  js_mul (number a) (number b) = Return (Fin (Qred (a * b))).
Proof. reflexivity. Qed.

















(** *** Product-wise *)

Lemma discount_item_typed (ids : list value) (d : DiscountSpec) (s : Q)
  (items : list value) (l : CartLine) :
  exists s',
    discount_item (VArr ids) (discount_config d) (Fin s, items) (line_value l)
    = Return (if eligible ids l
              then (Fin s', items ++ [discounted_item d l])
              else (Fin s, items))
    /\ s' == s + line_discount d l.
Proof.
  unfold discount_item. rewrite get_product_id. cbn [bind].
  unfold eligible. destruct (includes (VArr ids) (product_id l)).
  - rewrite get_price, get_quantity. cbn [bind]. rewrite js_mul_numbers.
    cbn [bind].
    replace (get (discount_config d) "type")
      with (Return (type_value (discount_type d))) by reflexivity.
    replace (get (discount_config d) "value")
      with (Return (number (discount_value d))) by reflexivity.
    cbn [bind]. unfold line_discount, discounted_item.
    destruct d as [[|] v];
      cbn [discount_type discount_value type_value is_string String.eqb
             Ascii.eqb Bool.eqb bind].
    + rewrite js_mul_numbers. cbn [bind].
      exists (Qred (s + Qred (Qred (Qred (price l * quantity l) * v) / 100))).
      split; [|now rewrite !Qred_correct].
      unfold Num.div. change (Qeq_bool 100 0) with false. cbv iota.
      unfold Num.add, Num.fin. rewrite roundPrice_number.
      rewrite (round2_proper _ (price l * quantity l * v / 100))
        by now rewrite !Qred_correct.
      reflexivity.
    + rewrite js_mul_numbers. cbn [bind].
      exists (Qred (s + Qred (v * quantity l))).
      split; [|now rewrite !Qred_correct].
      unfold Num.add, Num.fin. rewrite roundPrice_number.
      rewrite (round2_proper _ (v * quantity l)) by now rewrite !Qred_correct.
      reflexivity.
  - exists (s + line_discount d l). split; reflexivity.
Qed.

Lemma fold_discount_item (ids : list value) (d : DiscountSpec)
  (C : list CartLine) (s : Q) (items : list value) :
  exists s',
    foldM (discount_item (VArr ids) (discount_config d)) (map line_value C)
      (Fin s, items)
    = Return (Fin s',
              items ++ map (discounted_item d) (filter (eligible ids) C))
    /\ s' == s + discount_sum d (filter (eligible ids) C).
Proof.
  revert s items. induction C as [|l C IH]; intros s items.
  - exists s. cbn. rewrite app_nil_r. split; [reflexivity|lra].
  - cbn [map foldM filter].
    destruct (discount_item_typed ids d s items l) as [s1 [-> Hs1]].
    cbn [bind]. destruct (eligible ids l).
    + destruct (IH s1 (items ++ [discounted_item d l])) as [s2 [-> Hs2]].
      exists s2. split.
      * rewrite <- app_assoc. reflexivity.
      * rewrite Hs2, Hs1. cbn [discount_sum fold_right map].
        fold (discount_sum d (filter (eligible ids) C)). lra.
    + destruct (IH s items) as [s2 [-> Hs2]]. exists s2. now split.
Qed.

Lemma product_ids_typed (C : list CartLine) :
  product_ids (cart_value C) = Return (map product_id C).
Proof.
  unfold product_ids. cbn [elements cart_value].
  induction C as [|l C IH]; [reflexivity|].
  cbn [map mapM]. rewrite get_product_id. cbn [bind]. now rewrite IH.
Qed.

Lemma foldM_app {A S : Type} (f : S -> A -> completion S) (l1 l2 : list A)
  (s : S) :
  foldM f (l1 ++ l2) s = (s' <- foldM f l1 s ;; foldM f l2 s').
Proof.
  revert s. induction l1 as [|x l1 IH]; intro s; [reflexivity|].
  cbn [app foldM]. destruct (f s x); [apply IH | reflexivity].
Qed.

Lemma foldM_skip {A S : Type} (f : S -> A -> completion S) (l1 l2 : list A)
  (x : A) (s : S) :
  (forall s', f s' x = Return s') ->
  foldM f (l1 ++ x :: l2) s = foldM f (l1 ++ l2) s.
Proof.
  intro Hx. rewrite !foldM_app. destruct (foldM f l1 s) as [s'|e]; [|reflexivity].
  cbn [bind foldM]. now rewrite Hx.
Qed.

Lemma discount_item_skips (ids : list value) (dc : value) (l : CartLine) :
  eligible ids l = false ->
  forall state, discount_item (VArr ids) dc state (line_value l) = Return state.
Proof.
  intros Hl [s items]. unfold discount_item. rewrite get_product_id.
  cbn [bind]. unfold eligible in Hl. now rewrite Hl.
Qed.

Lemma no_items_array (l : list value) :
  no_items (VArr l) = match l with [] => true | _ => false end.
Proof. destruct l; reflexivity. Qed.


(** C8, as the calculator has it.  Removing a line whose product is not
    eligible leaves [applicable] and [discountAmount] as they were; an
    applicable result is the same altogether, breakdown included; and the
    reason is the same unless the cart becomes empty. *)
Theorem removing_ineligible_line_keeps_discount
  (before after : list CartLine) (L : CartLine) (ids : list value)
  (d : DiscountSpec) :
  eligible ids L = false ->
  exists r r',
    calculateProductWiseDiscount (cart_value (before ++ L :: after)) (VArr ids)
      (discount_config d) = Return r
    /\ calculateProductWiseDiscount (cart_value (before ++ after)) (VArr ids)
         (discount_config d) = Return r'
    /\ applicable r = applicable r'
    /\ discountAmount r = discountAmount r'
    /\ (applicable r = VBool true -> r = r')
    /\ (before ++ after <> [] -> reason r = reason r').
Proof.
  intro HL.
  unfold calculateProductWiseDiscount, calculateProductWiseDiscount_body.
  rewrite !no_items_cart, no_items_array.
  assert (Hfold :
    foldM (discount_item (VArr ids) (discount_config d))
      (map line_value (before ++ L :: after)) (Fin 0, [])
    = foldM (discount_item (VArr ids) (discount_config d))
        (map line_value (before ++ after)) (Fin 0, [])).
  { rewrite !map_app. cbn [map]. apply foldM_skip.
    now apply discount_item_skips. }
  destruct (before ++ L :: after) as [|x C] eqn:EC.
  { now destruct before. }
  rewrite <- EC in *. clear x C EC.
  destruct ids as [|i ids].
  { destruct (before ++ after); cbn [try_catch];
      eexists; eexists; repeat split; try reflexivity;
      intro H; try discriminate H; congruence. }
  cbn [truthy discount_config negb].
  change (elements (cart_value ?c)) with (map line_value c).
  rewrite Hfold.
  destruct (fold_discount_item (i :: ids) d (before ++ after) 0 [])
    as [s [Hs _]].
  rewrite Hs. cbn [bind app]. rewrite !product_ids_typed.
  replace (get (discount_config d) "type")
    with (Return (type_value (discount_type d))) by reflexivity.
  replace (get (discount_config d) "value")
    with (Return (number (discount_value d))) by reflexivity.
  destruct (before ++ after) as [|x C] eqn:EC.
  - cbn in Hs. injection Hs as <-. cbn [Num.is_zero bind try_catch].
    change (Qeq_bool 0 0) with true. cbv iota. cbn [bind try_catch].
    eexists. eexists. repeat split; try reflexivity;
      intro H; try discriminate H; congruence.
  - cbn [bind app]. destruct (Num.is_zero (Fin s)); cbn [bind try_catch];
      eexists; eexists; repeat split; try reflexivity;
      intro H; discriminate H.
Qed.

(** *** Buy X, get Y *)

































(** *** Every argument *)

Lemma bind_returns {A B : Type} (c : completion A) (k : A -> completion B)
  (b : B) :
  (x <- c ;; k x) = Return b -> exists a, c = Return a /\ k a = Return b.
Proof.
  destruct c as [a|e]; cbn [bind]; [|discriminate]. intro H. now exists a.
Qed.

Ltac returns :=
  repeat match goal with
    | H : Return _ = Return _ |- _ => injection H as H; subst
    | H : Throw _ = Return _ |- _ => discriminate H
    | H : bind _ _ = Return _ |- _ =>
        let a := fresh "a" in
        let Ha := fresh "Ha" in
        apply bind_returns in H; destruct H as [a [Ha H]]
    | H : (if ?c then _ else _) = Return _ |- _ => destruct c eqn:?
    | H : (let (_, _) := ?p in _) = Return _ |- _ => destruct p
    end.

Ltac shape :=
  eexists; eexists; eexists;
  (split; [reflexivity|]); (split; [reflexivity|]); (split; [reflexivity|]);
  first [ discriminate
        | intros _; split; [reflexivity | eexists; reflexivity] ].

Lemma cartwise_body_shape
  (cartItems couponConditions discountConfig r : value) :
  calculateCartWiseDiscount_body cartItems couponConditions discountConfig
  = Return r -> EvaluationResult r.
Proof.
  unfold calculateCartWiseDiscount_body, below_minimum, cart_discount,
    cart_is_empty.
  intro H. returns; shape.
Qed.

Lemma productwise_body_shape
  (cartItems applicableProducts discountConfig r : value) :
  calculateProductWiseDiscount_body cartItems applicableProducts discountConfig
  = Return r -> EvaluationResult r.
Proof.
  unfold calculateProductWiseDiscount_body, cart_is_empty.
  intro H. returns; shape.
Qed.

Lemma bxgy_body_shape
  (cartItems buyQuantity getQuantity buyArray getArray repetitionLimit r : value) :
  calculateBxGyDiscount_body cartItems buyQuantity getQuantity buyArray getArray
    repetitionLimit = Return r -> EvaluationResult r.
Proof.
  unfold calculateBxGyDiscount_body, too_few, free_items, cart_is_empty.
  intro H. returns; shape.
Qed.

Lemma caught_shape (e : error) : EvaluationResult (calculation_error_result e).
Proof. unfold calculation_error_result. shape. Qed.

Lemma try_catch_total (body : completion value) :
  (forall r, body = Return r -> EvaluationResult r) ->
  exists r,
    try_catch body calculation_error = Return r
    /\ EvaluationResult r
    /\ (forall e, body = Throw e -> r = calculation_error_result e).
Proof.
  intro Hbody. destruct body as [r|e]; cbn [try_catch calculation_error].
  - exists r. split; [reflexivity|]. split; [now apply Hbody|discriminate].
  - eexists. split; [reflexivity|]. split; [apply caught_shape|].
    now intros e' [= <-].
Qed.

(** C10.  Whatever the arguments, each evaluator returns: its completion is
    a result object with a boolean [applicable] and a numeric
    [discountAmount] (0 and a reason when not applicable), and when the
    body throws, the result is the one of the handler, not applicable, with
    discount 0 and the reason "Calculation error: " followed by the message
    of the error. *)
Theorem evaluators_always_return_a_result
  (cartItems couponConditions discountConfig applicableProducts
     buyQuantity getQuantity buyArray getArray repetitionLimit : value) :
  (exists r,
     calculateCartWiseDiscount cartItems couponConditions discountConfig
     = Return r
     /\ EvaluationResult r
     /\ forall e,
          calculateCartWiseDiscount_body cartItems couponConditions
            discountConfig = Throw e ->
          r = calculation_error_result e)
  /\ (exists r,
        calculateProductWiseDiscount cartItems applicableProducts discountConfig
        = Return r
        /\ EvaluationResult r
        /\ forall e,
             calculateProductWiseDiscount_body cartItems applicableProducts
               discountConfig = Throw e ->
             r = calculation_error_result e)
  /\ (exists r,
        calculateBxGyDiscount cartItems buyQuantity getQuantity buyArray
          getArray repetitionLimit = Return r
        /\ EvaluationResult r
        /\ forall e,
             calculateBxGyDiscount_body cartItems buyQuantity getQuantity
               buyArray getArray repetitionLimit = Throw e ->
             r = calculation_error_result e).
Proof.
  split; [|split].
  - apply try_catch_total. intro r. apply cartwise_body_shape.
  - apply try_catch_total. intro r. apply productwise_body_shape.
  - apply try_catch_total. intro r. apply bxgy_body_shape.
Qed.

(** *** Valid carts *)



End Properties.

(** ** The calculator at work

    The scenarios of the unit tests, run on the sample host. *)

Section Scenarios.

#[local] Existing Instance Sample.host.

Example cart_ten_percent :
  exists r,
    calculateCartWiseDiscount
      (cart_value [line "A" 100 1; line "B" 50 1])
      (conditions_value (mkConditions (Some 100) None))
      (discount_config (mkDiscount PERCENTAGE 10)) = Return r
    /\ applicable r = VBool true /\ discountAmount r = number 15.
Proof. eexists. split; [vm_compute; reflexivity|]. split; reflexivity. Qed.

Example cart_below_minimum :
  exists r,
    calculateCartWiseDiscount
      (cart_value [line "A" 50 1])
      (conditions_value (mkConditions (Some 100) None))
      (discount_config (mkDiscount PERCENTAGE 10)) = Return r
    /\ applicable r = VBool false /\ discountAmount r = number 0
    /\ reason r = VStr "Cart total Rs.50 is below minimum Rs.100".
Proof.
  eexists. split; [vm_compute; reflexivity|]. repeat split; reflexivity.
Qed.

Example cart_capped :
  exists r,
    calculateCartWiseDiscount
      (cart_value [line "A" 10000 1])
      (conditions_value (mkConditions (Some 100) (Some 500)))
      (discount_config (mkDiscount PERCENTAGE 20)) = Return r
    /\ applicable r = VBool true /\ discountAmount r = number 500
    /\ reason r = VStr "Discount capped at maximum of Rs.500".
Proof.
  eexists. split; [vm_compute; reflexivity|]. repeat split; reflexivity.
Qed.

Example null_cart :
  calculateCartWiseDiscount VNull
    (conditions_value (mkConditions (Some 100) None))
    (discount_config (mkDiscount PERCENTAGE 10))
  = Return (VObj [("applicable", VBool false);
                  ("reason", VStr "Cart is empty");
                  ("discountAmount", number 0)]).
Proof. reflexivity. Qed.

(* A line that is [null] makes the body throw; the handler answers. *)
Example null_line :
  calculateCartWiseDiscount_body (VArr [VNull])
    (conditions_value (mkConditions (Some 100) None))
    (discount_config (mkDiscount PERCENTAGE 10))
  = Throw (TypeError "Cannot read properties of null (reading 'price')")
  /\ calculateCartWiseDiscount (VArr [VNull])
       (conditions_value (mkConditions (Some 100) None))
       (discount_config (mkDiscount PERCENTAGE 10))
     = Return (VObj [
         ("applicable", VBool false);
         ("reason",
          VStr "Calculation error: Cannot read properties of null (reading 'price')");
         ("discountAmount", number 0)]).
Proof. split; reflexivity. Qed.

Example product_twenty_percent :
  exists r,
    calculateProductWiseDiscount
      (cart_value [line "PROD_001" 100 2; line "PROD_002" 50 1;
                   line "PROD_003" 75 1])
      (VArr [VStr "PROD_001"; VStr "PROD_003"])
      (discount_config (mkDiscount PERCENTAGE 20)) = Return r
    /\ applicable r = VBool true /\ discountAmount r = number 55.
Proof. eexists. split; [vm_compute; reflexivity|]. split; reflexivity. Qed.

Example product_fixed_per_unit :
  exists r,
    calculateProductWiseDiscount
      (cart_value [line "PROD_001" 100 2; line "PROD_002" 50 1])
      (VArr [VStr "PROD_001"])
      (discount_config (mkDiscount FIXED_AMOUNT 50)) = Return r
    /\ applicable r = VBool true /\ discountAmount r = number 100.
Proof. eexists. split; [vm_compute; reflexivity|]. split; reflexivity. Qed.

Example bxgy_with_limit :
  exists r,
    calculateBxGyDiscount
      (cart_value [line "A" 100 6; line "D" 500 1; line "E" 400 1;
                   line "F" 300 1])
      (number 2) (number 1) (VArr [VStr "A"; VStr "B"; VStr "C"])
      (VArr [VStr "D"; VStr "E"; VStr "F"]) (number 3) = Return r
    /\ applicable r = VBool true /\ discountAmount r = number 1200
    /\ field "timesApplied" (breakdownInfo r) = number 3.
Proof.
  eexists. split; [vm_compute; reflexivity|]. repeat split; reflexivity.
Qed.

Example bxgy_too_few :
  exists r,
    calculateBxGyDiscount
      (cart_value [line "A" 100 1; line "D" 500 1])
      (number 2) (number 1) (VArr [VStr "A"; VStr "B"])
      (VArr [VStr "D"; VStr "E"]) (number 10) = Return r
    /\ applicable r = VBool false /\ discountAmount r = number 0
    /\ reason r
       = VStr "Need at least 2 items from buy array, but found 1".
Proof.
  eexists. split; [vm_compute; reflexivity|]. repeat split; reflexivity.
Qed.

Example bxgy_dearest_is_free :
  exists r,
    calculateBxGyDiscount
      (cart_value [line "A" 100 2; line "D" 100 1; line "E" 500 1;
                   line "F" 200 1])
      (number 2) (number 1) (VArr [VStr "A"; VStr "B"])
      (VArr [VStr "D"; VStr "E"; VStr "F"]) (number 1) = Return r
    /\ applicable r = VBool true /\ discountAmount r = number 500.
Proof. eexists. split; [vm_compute; reflexivity|]. split; reflexivity. Qed.

End Scenarios.

(** ** Instances and counterexamples *)






Lemma removing_ineligible_line_keeps_discount_witness :
  let L := line "P2" 50 1 in
  let ids := [VStr "P1"; VStr "P3"] in
  let d := mkDiscount PERCENTAGE 20 in
  eligible ids L = false
  /\ exists r r',
       calculateProductWiseDiscount (host := Sample.host)
         (cart_value ([line "P1" 100 2] ++ L :: [line "P3" 75 1])) (VArr ids)
         (discount_config d) = Return r
       /\ calculateProductWiseDiscount (host := Sample.host)
            (cart_value ([line "P1" 100 2] ++ [line "P3" 75 1])) (VArr ids)
            (discount_config d) = Return r'
       /\ applicable r = applicable r'
       /\ discountAmount r = discountAmount r'
       /\ (applicable r = VBool true -> r = r')
       /\ ([line "P1" 100 2] ++ [line "P3" 75 1] <> [] -> reason r = reason r').
Proof.
  intros L ids d. split; [reflexivity|].
  exact (removing_ineligible_line_keeps_discount (host := Sample.host)
           [line "P1" 100 2] [line "P3" 75 1] L ids d eq_refl).
Defined.

(* A cart of one ineligible line: with the line the reason is that no
   eligible product is in the cart, without it that the cart is empty. *)
Lemma removing_ineligible_line_changes_nothing_fails :
  ~ removing_ineligible_line_changes_nothing (host := Sample.host)
      [] [] (line "B" 50 1) [VStr "A"] (mkDiscount PERCENTAGE 20).
Proof.
  unfold removing_ineligible_line_changes_nothing. intro H.
  specialize (H eq_refl). vm_compute in H. discriminate H.
Qed.

(** The rounding helper on doubles, step by step, at
    39231616952217.375: times 100 this is 3923161695221737.5, which rounds
    to 3923161695221738; a hundredth of that is not a double, the nearest is
    39231616952217.3828125.  Times 100 that is 3923161695221738.28125, which
    is not a double either: doubles of this size are 0.5 apart, the product
    is 3923161695221738.5, and it rounds to 3923161695221739. *)

Example rounding_a_large_amount :
  (39231616952217.375 * 100 = 3923161695221737.5)%float
  /\ Binary64.Math_round 3923161695221737.5 = 3923161695221738%float
  /\ Binary64._roundPrice 39231616952217.375 = 39231616952217.3828125%float
  /\ (39231616952217.3828125 * 100 = 3923161695221738.5)%float
  /\ Binary64.Math_round 3923161695221738.5 = 3923161695221739%float
  /\ Binary64._roundPrice 39231616952217.3828125
     = 39231616952217.390625%float.
Proof. repeat split; vm_compute; reflexivity. Qed.

Example rounding_on_doubles :
  Binary64._roundPrice 10.5 = 10.5%float
  /\ Binary64._roundPrice (-2.5) = (-2.5)%float
  /\ rounding_is_idempotent_on_doubles 0.125
  /\ rounding_is_idempotent_on_doubles 1234.5625.
Proof. repeat split; vm_compute; reflexivity. Qed.

(* NaN is a number that no comparison finds equal to itself. *)
Example rounding_nan :
  Binary64._roundPrice nan = nan /\ ~ rounding_is_idempotent_on_doubles nan.
Proof.
  split; [vm_compute; reflexivity|].
  unfold rounding_is_idempotent_on_doubles. vm_compute. discriminate.
Qed.


(** * Properties of the other helpers and the callers *)

Section CallerProperties.

Context {host : Host}.

Lemma js_ge_zero (n : num) :
  js_ge (VNum n) (number 0) = Return (not_negative n).
Proof.
  destruct n as [q| | |]; try reflexivity.
  unfold js_ge. cbn. now destruct (Qlt_le_dec q 0).
Qed.

Lemma js_gt_zero (n : num) :
  js_gt (VNum n) (number 0) = Return (above_zero n).
Proof.
  destruct n as [q| | |]; try reflexivity.
  unfold js_gt. cbn. now destruct (Qlt_le_dec 0 q).
Qed.

Lemma required_fields_object (props : list (string * value)) :
  exists r, required_fields (VObj props) = Return r
            /\ truthy r = acceptable (VObj props).
Proof.
  unfold required_fields, acceptable. cbn [get bind].
  destruct (own "product_id" props) as [id|].
  2:{ eexists. split; reflexivity. }
  unfold and_then at 1. destruct (truthy id) eqn:Hid.
  2:{ eexists. split; [reflexivity|]. rewrite Hid.
      destruct (own "price" props) as [[]|]; try reflexivity;
      destruct (own "quantity" props) as [[]|]; reflexivity. }
  destruct (own "price" props) as [p|].
  2:{ eexists. split; reflexivity. }
  destruct p as [| |b|p|s|l|o]; try (eexists; split; reflexivity).
  cbn [is_number and_then truthy bind]. rewrite js_ge_zero. cbn [bind].
  unfold and_then at 1. cbn [truthy].
  destruct (not_negative p).
  2:{ eexists. split; [reflexivity|].
      destruct (own "quantity" props) as [[]|]; reflexivity. }
  destruct (own "quantity" props) as [q|].
  2:{ eexists. split; reflexivity. }
  destruct q as [| |b|q|s|l|o]; try (eexists; split; reflexivity).
  cbn [is_number and_then truthy bind]. rewrite js_gt_zero. cbn [bind].
  eexists. split; reflexivity.
Qed.

Lemma required_fields_spec (item : value) :
  if nullish item
  then exists msg, required_fields item = Throw (TypeError msg)
  else exists r, required_fields item = Return r
                 /\ truthy r = acceptable item.
Proof.
  destruct item; cbn [nullish]; try (eexists; reflexivity);
    try (eexists; split; reflexivity).
  apply required_fields_object.
Qed.

(** ** The cart total *)

Lemma item_total_nullish (s : num) (item : value) :
  nullish item = true -> exists e, item_total s item = Throw e.
Proof.
  destruct item; try discriminate; intros _; eexists; reflexivity.
Qed.

Lemma fold_item_total_nullish (items : list value) (s : num) :
  existsb nullish items = true ->
  exists e, foldM item_total items s = Throw e.
Proof.
  revert s. induction items as [|x items IH]; intros s H; [discriminate|].
  cbn [existsb foldM] in *.
  destruct (item_total s x) as [s'|e] eqn:E; cbn [bind].
  - destruct (nullish x) eqn:Hx.
    + destruct (item_total_nullish s x Hx) as [e He]. congruence.
    + apply IH. exact H.
  - now exists e.
Qed.

(** X2.  calculateCartTotal has no try/catch: on a cart that holds a null or
    an undefined item it throws, where the three evaluators return a
    "Calculation error" result. *)
Theorem cart_total_throws_on_a_missing_item (items : list value) :
  existsb nullish items = true ->
  (exists e, calculateCartTotal (VArr items) = Throw e)
  /\ forall conditions config : value,
       exists e, calculateCartWiseDiscount (VArr items) conditions config
                 = Return (calculation_error_result e).
Proof.
  intro H. split.
  - unfold calculateCartTotal. cbn [truthy Array_isArray negb orb elements].
    destruct (fold_item_total_nullish items (Fin 0) H) as [e ->].
    now exists e.
  - intros conditions config.
    unfold calculateCartWiseDiscount, calculateCartWiseDiscount_body.
    destruct items as [|x items]; [discriminate|].
    change (no_items (VArr (x :: items))) with false. cbv iota.
    destruct (negb (truthy conditions) || negb (truthy config)).
    { eexists. reflexivity. }
    cbn [elements].
    destruct (fold_item_total_nullish (x :: items) (Fin 0) H) as [e ->].
    exists e. reflexivity.
Qed.

(** ** The product-wise evaluator *)

Lemma fold_discount_item_unknown (ids : list value) (dc type : value)
  (C : list CartLine) (items : list value) :
  get dc "type" = Return type ->
  is_string type "PERCENTAGE" = false ->
  is_string type "FIXED_AMOUNT" = false ->
  exists items',
    foldM (discount_item (VArr ids) dc) (map line_value C) (Fin 0, items)
    = Return (Fin 0, items').
Proof.
  intros Htype Hp Hf. revert items.
  induction C as [|l C IH]; intro items; [now exists items|].
  cbn [map foldM]. unfold discount_item at 1.
  rewrite get_product_id. cbn [bind].
  destruct (includes (VArr ids) (product_id l)); [|apply IH].
  rewrite get_price, get_quantity. cbn [bind].
  rewrite js_mul_numbers. cbn [bind]. rewrite Htype. cbn [bind].
  rewrite Hp, Hf. cbn [bind].
  change (Num.add (Fin 0) (Fin 0)) with (Fin 0). apply IH.
Qed.

(** X6.  The product-wise evaluator does not reject a discount type it does
    not know: each eligible line then gets a discount of 0, and the result
    is the refusal "No applicable products found in your cart", not a
    calculation error, whether or not the cart holds eligible products. *)
Theorem productwise_unknown_type_is_no_error
  (C : list CartLine) (ids : list value) (config type : value) :
  C <> [] -> ids <> [] -> truthy config = true ->
  get config "type" = Return type ->
  is_string type "PERCENTAGE" = false ->
  is_string type "FIXED_AMOUNT" = false ->
  exists r,
    calculateProductWiseDiscount (cart_value C) (VArr ids) config = Return r
    /\ applicable r = VBool false
    /\ discountAmount r = number 0
    /\ reason r = VStr "No applicable products found in your cart".
Proof.
  intros HC Hids Hconfig Htype Hp Hf.
  unfold calculateProductWiseDiscount, calculateProductWiseDiscount_body.
  rewrite no_items_cart, no_items_array.
  destruct C as [|l C]; [congruence|]. destruct ids as [|i ids]; [congruence|].
  rewrite Hconfig. cbn [negb].
  change (elements (cart_value (l :: C))) with (map line_value (l :: C)).
  destruct (fold_discount_item_unknown (i :: ids) config type (l :: C) []
              Htype Hp Hf) as [items' ->].
  cbn [bind Num.is_zero]. change (Qeq_bool 0 0) with true. cbv iota.
  rewrite product_ids_typed. cbn [bind try_catch].
  eexists. split; [reflexivity|]. repeat split; reflexivity.
Qed.

(** ** The buy X, get Y evaluator *)






(** ** The checks of the service against the evaluators *)














(** ** The validation of a cart item *)

(** X17.  _isValidCartItem never throws, and its answer is truthy exactly
    for an object with a truthy product_id, a numeric price that is >= 0
    and a numeric quantity that is > 0.  The answer is not always a
    boolean: a falsy item or product_id is returned as it is. *)
Theorem isValidCartItem_accepts (item : value) :
  exists r, _isValidCartItem item = Return r
            /\ truthy r = acceptable item
            /\ (truthy item = false -> r = item).
Proof.
  unfold _isValidCartItem, and_then.
  destruct (truthy item) eqn:Hitem.
  - pose proof (required_fields_spec item) as H.
    destruct item; try discriminate; cbn [nullish] in H;
      destruct H as [r [Hr Ha]]; exists r; (split; [exact Hr|]);
      (split; [exact Ha|discriminate]).
  - exists item. split; [reflexivity|]. split; [|reflexivity].
    rewrite Hitem. now destruct item.
Qed.

(** X18.  The validation the two handlers write out is _isValidCartItem
    without its guard on the item itself.  On every item that is not null
    or undefined the two give answers of the same truth value; on null and
    undefined the helper answers with the item, which is falsy, and the
    handlers' check throws a TypeError. *)
Theorem inline_validation_lacks_the_item_guard (item : value) :
  if nullish item
  then _isValidCartItem item = Return item
       /\ exists msg, required_fields item = Throw (TypeError msg)
  else exists r r',
         _isValidCartItem item = Return r
         /\ required_fields item = Return r'
         /\ truthy r = truthy r'.
Proof.
  pose proof (required_fields_spec item) as H.
  destruct (nullish item) eqn:Hn.
  - split; [|exact H]. now destruct item.
  - destruct H as [r' [Hr' Ha']].
    unfold _isValidCartItem, and_then. destruct (truthy item) eqn:Hitem.
    + exists r', r'. now repeat split.
    + exists item, r'. split; [reflexivity|]. split; [exact Hr'|].
      rewrite Hitem, Ha'. now destruct item.
Qed.

(** ** The handlers *)

Lemma every_required_fields (items : list value) :
  every required_fields items
  = match first_rejected items with
    | None => Return true
    | Some bad => _ <- get bad "product_id" ;; Return false
    end.
Proof.
  unfold first_rejected. induction items as [|x items IH]; [reflexivity|].
  cbn [every find]. pose proof (required_fields_spec x) as H.
  destruct (nullish x) eqn:Hn.
  - destruct x; try discriminate; reflexivity.
  - destruct H as [r [-> Ha]]. cbn [bind]. rewrite Ha.
    destruct (acceptable x) eqn:Hx; cbn [negb]; [exact IH|].
    destruct x; try discriminate; reflexivity.
Qed.

Lemma cart_of_spec (body : value) :
  Controller.cart_of body = Return (option_map VArr (cart_items body)).
Proof.
  unfold Controller.cart_of, Controller.array_field.
  destruct body as [| |b|n|s|l|props]; try reflexivity.
  - now destruct b.
  - cbn [Array_isArray]. now destruct (truthy (VNum n)).
  - cbn [Array_isArray]. now destruct (truthy (VStr s)).
  - cbn [Array_isArray truthy get bind cart_items].
    destruct (own "cartItems" props) as [[]|]; try reflexivity;
      destruct (own "items" props) as [[]|]; reflexivity.
Qed.

Lemma validated_cart_spec (body : value) :
  Controller.validated_cart body
  = match cart_items body with
    | None => Return (inl Controller.invalid_structure)
    | Some [] => Return (inl Controller.empty_or_invalid)
    | Some items =>
        match first_rejected items with
        | None => Return (inr (VArr items))
        | Some bad =>
            _ <- get bad "product_id" ;; Return (inl Controller.invalid_item)
        end
    end.
Proof.
  unfold Controller.validated_cart. rewrite cart_of_spec.
  destruct (cart_items body) as [[|x items]|]; try reflexivity.
  cbn [option_map bind Array_isArray negb orb elements List.length Nat.eqb].
  rewrite every_required_fields.
  destruct (first_rejected (x :: items)) as [bad|]; [|reflexivity].
  now destruct (get bad "product_id").
Qed.

Lemma first_rejected_none (items : list value) :
  first_rejected items = None -> forallb acceptable items = true.
Proof.
  unfold first_rejected. induction items as [|x items IH]; [reflexivity|].
  cbn [find forallb]. destruct (acceptable x); cbn [negb andb];
    [exact IH|discriminate].
Qed.

Lemma forallb_accepted (items : list value) :
  forallb acceptable items = true -> first_rejected items = None.
Proof.
  unfold first_rejected. induction items as [|x items IH]; [reflexivity|].
  cbn [find forallb]. destruct (acceptable x); cbn [negb andb];
    [exact IH|discriminate].
Qed.

(** X19.  A handler answers 200 only for a valid cart: when
    getApplicableCoupons or applyCouponToCart responds with status 200, the
    request body carried, in one of the three formats, a cart that is not
    empty and whose items all have a truthy product_id, a numeric price
    >= 0 and a numeric quantity > 0. *)
Theorem handlers_succeed_only_on_valid_carts
  (applicable_for : value -> completion value)
  (apply_to : value -> value -> completion value) (couponId body : value) :
  status (Controller.getApplicableCoupons applicable_for body) = 200%Z
  \/ status (Controller.applyCouponToCart apply_to couponId body) = 200%Z ->
  exists items,
    cart_items body = Some items /\ items <> []
    /\ forallb acceptable items = true.
Proof.
  unfold Controller.getApplicableCoupons, Controller.applyCouponToCart.
  rewrite validated_cart_spec.
  assert (Hfail : forall code e,
            status (Controller.failure code e) = code) by reflexivity.
  assert (Hcatch : forall e,
            status (if contains (message e) "not found"
                    then Controller.failure 404 e
                    else if contains (message e) "cannot be applied"
                         then Controller.failure 400 e
                         else Controller.failure 500 e) <> 200%Z).
  { intro e. destruct (contains _ _); [discriminate|].
    destruct (contains _ _); discriminate. }
  destruct (cart_items body) as [[|x items]|].
  - intros [H|H]; [discriminate H|].
    destruct (negb (truthy couponId)); discriminate H.
  - destruct (first_rejected (x :: items)) as [bad|] eqn:E.
    + intros [H|H]; exfalso.
      * destruct (get bad "product_id"); discriminate H.
      * destruct (negb (truthy couponId)); [discriminate H|].
        destruct (get bad "product_id") as [v|e]; [discriminate H|].
        exact (Hcatch e H).
    + intros _. exists (x :: items). split; [reflexivity|].
      split; [discriminate|]. now apply first_rejected_none.
  - intros [H|H]; [discriminate H|].
    destruct (negb (truthy couponId)); discriminate H.
Qed.

(** X20.  A null or undefined cart item is answered as a server error.  When
    the first item of the cart that is not valid is null or undefined, the
    validation throws instead of answering "Invalid cart item": both
    handlers respond with status 500 and the message of the TypeError. *)
Theorem missing_item_is_a_server_error
  (applicable_for : value -> completion value)
  (apply_to : value -> value -> completion value)
  (couponId body bad : value) (items : list value) :
  cart_items body = Some items ->
  first_rejected items = Some bad ->
  nullish bad = true ->
  truthy couponId = true ->
  let answer :=
    respond 500 (VObj [
      ("success", VBool false);
      ("message",
       VStr match bad with
            | VNull => "Cannot read properties of null (reading 'product_id')"
            | _ =>
                "Cannot read properties of undefined (reading 'product_id')"
            end)]) in
  Controller.getApplicableCoupons applicable_for body = answer
  /\ Controller.applyCouponToCart apply_to couponId body = answer.
Proof.
  intros Hcart Hbad Hnull Hid answer.
  unfold Controller.getApplicableCoupons, Controller.applyCouponToCart.
  rewrite validated_cart_spec, Hcart, Hbad, Hid.
  destruct items as [|x items]; [discriminate|].
  destruct bad; try discriminate; split; reflexivity.
Qed.

(** X21.  A valid cart reaches the service, and the answer of the handler
    is the answer of the service.  For a body that carries a cart that is
    not empty and whose items are all valid: getApplicableCoupons responds
    200 with the coupons of the service and their number when the service
    returns an array, and 500 with the message of the error when it
    throws. *)
Theorem applicable_coupons_of_a_valid_cart
  (applicable_for : value -> completion value) (body : value) (items : list value) :
  cart_items body = Some items -> items <> [] ->
  forallb acceptable items = true ->
  match applicable_for (VArr items) with
  | Return (VArr coupons) =>
      let count := number (inject_Z (Z.of_nat (List.length coupons))) in
      Controller.getApplicableCoupons applicable_for body
      = respond 200 (VObj [
          ("success", VBool true);
          ("message",
           VStr ("Found "
                   ++ NumberToString
                        (Fin (inject_Z (Z.of_nat (List.length coupons))))
                   ++ " applicable coupon(s)"));
          ("applicableCoupons", VArr coupons);
          ("count", count)])
  | Return _ => True
  | Throw e =>
      Controller.getApplicableCoupons applicable_for body = Controller.failure 500 e
  end.
Proof.
  intros Hcart Hne Hall.
  unfold Controller.getApplicableCoupons.
  rewrite validated_cart_spec, Hcart, (forallb_accepted items Hall).
  destruct items as [|x items]; [congruence|]. cbn [bind].
  destruct (applicable_for (VArr (x :: items))) as [[| |b|n|s|coupons|o]|e];
    try exact I; reflexivity.
Qed.

(** X22.  How applyCouponToCart answers for a valid cart and a coupon id.
    When the service returns, the response is 200 with its result.  When it
    throws, the status follows the message of the error: 404 when it
    contains "not found", otherwise 400 when it contains "cannot be
    applied", otherwise 500; the message is passed on in each case. *)
Theorem apply_answers_by_the_error_message
  (apply_to : value -> value -> completion value)
  (couponId body : value) (items : list value) :
  truthy couponId = true ->
  cart_items body = Some items -> items <> [] ->
  forallb acceptable items = true ->
  Controller.applyCouponToCart apply_to couponId body
  = match apply_to couponId (VArr items) with
    | Return result =>
        respond 200 (VObj [("success", VBool true);
                           ("message", VStr "Coupon applied successfully");
                           ("result", result)])
    | Throw e =>
        let code :=
          if contains (message e) "not found" then 404%Z
          else if contains (message e) "cannot be applied" then 400%Z
          else 500%Z in
        respond code (VObj [("success", VBool false);
                            ("message", VStr (message e))])
    end.
Proof.
  intros Hid Hcart Hne Hall.
  unfold Controller.applyCouponToCart.
  rewrite validated_cart_spec, Hcart, (forallb_accepted items Hall), Hid.
  destruct items as [|x items]; [congruence|]. cbn [bind negb].
  destruct (apply_to couponId (VArr (x :: items))) as [result|e];
    [reflexivity|].
  cbn [bind]. cbv zeta.
  destruct (contains (message e) "not found"); [reflexivity|].
  destruct (contains (message e) "cannot be applied"); reflexivity.
Qed.

(** ** The free units of a buy X, get Y coupon *)




End CallerProperties.

(** ** The cart endpoints at work

    The scenarios of the integration tests on the two cart endpoints, run
    on the sample host with a service that finds no coupon, and the checks
    of the service on the coupons of those tests. *)

Section CallerScenarios.

#[local] Existing Instance Sample.host.

Example check_with_cartItems_format :
  Controller.getApplicableCoupons no_coupon (VObj [("cartItems", test_cart)])
  = respond 200 (VObj [("success", VBool true);
                       ("message", VStr "Found 0 applicable coupon(s)");
                       ("applicableCoupons", VArr []);
                       ("count", number 0)]).
Proof. vm_compute. reflexivity. Qed.

Example check_with_direct_array :
  status (Controller.getApplicableCoupons no_coupon test_cart) = 200%Z.
Proof. vm_compute. reflexivity. Qed.

Example check_rejects_empty_cart :
  Controller.getApplicableCoupons no_coupon (VArr [])
  = Controller.empty_or_invalid.
Proof. vm_compute. reflexivity. Qed.

Example check_rejects_invalid_structure :
  Controller.getApplicableCoupons no_coupon
    (VObj [("invalid", VStr "format")])
  = Controller.invalid_structure.
Proof. vm_compute. reflexivity. Qed.

Example apply_rejects_empty_cart :
  Controller.applyCouponToCart not_found (VStr "652f1c0e9b1d8a0012345678")
    (VArr [])
  = Controller.empty_or_invalid.
Proof. vm_compute. reflexivity. Qed.

Example apply_unknown_coupon :
  status (Controller.applyCouponToCart not_found
            (VStr "652f1c0e9b1d8a0012345678") test_cart) = 404%Z.
Proof. vm_compute. reflexivity. Qed.

Example cart_coupon_of_the_tests :
  Service._checkCartWise
    (VObj [("type", VStr "CART_WISE");
           ("conditions", VObj [("minimum_cart_value", number 100)])])
    test_cart
  = Return (VObj [("applicable", VBool true)]).
Proof. vm_compute. reflexivity. Qed.

Example product_coupon_of_the_tests :
  Service._checkProductWise
    (VObj [("type", VStr "PRODUCT_WISE");
           ("conditions",
            VObj [("applicable_products",
                   VArr [VStr "PROD_001"; VStr "PROD_002"])])])
    test_cart
  = Return (VObj [("applicable", VBool true)]).
Proof. vm_compute. reflexivity. Qed.

Example bxgy_coupon_too_few :
  Service._checkBxGy
    (VObj [("type", VStr "BXGY");
           ("conditions",
            VObj [("buy_quantity", number 3); ("get_quantity", number 1);
                  ("buy_from", VArr [VStr "PROD_001"]);
                  ("get_from", VArr [VStr "PROD_002"])])])
    test_cart
  = Return (VObj [("applicable", VBool false);
                  ("reason",
                   VStr "Need 3 items from buy array, found 2")]).
Proof. vm_compute. reflexivity. Qed.

End CallerScenarios.

(** ** Instances of the properties of the callers *)

Lemma cart_total_throws_on_a_missing_item_witness :
  let items := [line_value (line "A" 100 1); VNull] in
  existsb nullish items = true
  /\ (exists e, calculateCartTotal (host := Sample.host) (VArr items) = Throw e)
  /\ forall conditions config : value,
       exists e,
         calculateCartWiseDiscount (host := Sample.host) (VArr items)
           conditions config = Return (calculation_error_result e).
Proof.
  intro items. split; [reflexivity|].
  exact (cart_total_throws_on_a_missing_item (host := Sample.host) items
           eq_refl).
Defined.

Lemma productwise_unknown_type_is_no_error_witness :
  let C := [line "A" 100 1] in
  let ids := [VStr "A"] in
  let config := VObj [("type", VStr "BOGUS"); ("value", number 10)] in
  C <> [] /\ ids <> [] /\ truthy config = true
  /\ get config "type" = Return (VStr "BOGUS")
  /\ is_string (VStr "BOGUS") "PERCENTAGE" = false
  /\ is_string (VStr "BOGUS") "FIXED_AMOUNT" = false
  /\ exists r,
       calculateProductWiseDiscount (host := Sample.host) (cart_value C)
         (VArr ids) config = Return r
       /\ applicable r = VBool false
       /\ discountAmount r = number 0
       /\ reason r = VStr "No applicable products found in your cart".
Proof.
  intros C ids config.
  assert (HC : C <> []) by discriminate.
  assert (Hids : ids <> []) by discriminate.
  split; [exact HC|]. split; [exact Hids|]. repeat (split; [reflexivity|]).
  exact (productwise_unknown_type_is_no_error (host := Sample.host) C ids
           config (VStr "BOGUS") HC Hids eq_refl eq_refl eq_refl eq_refl).
Defined.






Lemma handlers_succeed_only_on_valid_carts_witness :
  let body := VObj [("cartItems", VArr [line_value (line "A" 100 2)])] in
  let applicable_for := fun _ : value => Return (VArr []) in
  let apply_to :=
    fun _ _ : value => @Throw value (Error "Coupon not found") in
  status (Controller.getApplicableCoupons (host := Sample.host)
            applicable_for body) = 200%Z
  /\ exists items,
       cart_items body = Some items /\ items <> []
       /\ forallb acceptable items = true.
Proof.
  intros body applicable_for apply_to.
  assert (H : status (Controller.getApplicableCoupons (host := Sample.host)
                        applicable_for body) = 200%Z) by reflexivity.
  split; [exact H|].
  exact (handlers_succeed_only_on_valid_carts (host := Sample.host)
           applicable_for apply_to (VStr "64b") body (or_introl H)).
Defined.

Lemma missing_item_is_a_server_error_witness :
  let items := [line_value (line "A" 100 2); VNull] in
  let body := VObj [("items", VArr items)] in
  let applicable_for := fun _ : value => Return (VArr []) in
  let apply_to := fun _ _ : value => Return VUndefined in
  cart_items body = Some items
  /\ first_rejected items = Some VNull
  /\ status (Controller.getApplicableCoupons (host := Sample.host)
               applicable_for body) = 500%Z
  /\ status (Controller.applyCouponToCart (host := Sample.host) apply_to
               (VStr "64b") body) = 500%Z.
Proof.
  intros items body applicable_for apply_to.
  split; [reflexivity|]. split; [reflexivity|].
  destruct (missing_item_is_a_server_error (host := Sample.host)
              applicable_for apply_to (VStr "64b") body VNull items
              eq_refl eq_refl eq_refl eq_refl) as [-> ->].
  split; reflexivity.
Defined.

Lemma applicable_coupons_of_a_valid_cart_witness :
  let items := [line_value (line "A" 100 2)] in
  let coupons := [VObj [("code", VStr "SAVE10")]] in
  let applicable_for := fun _ : value => Return (VArr coupons) in
  cart_items (VArr items) = Some items /\ items <> []
  /\ forallb acceptable items = true
  /\ Controller.getApplicableCoupons (host := Sample.host) applicable_for
       (VArr items)
     = respond 200 (VObj [
         ("success", VBool true);
         ("message", VStr "Found 1 applicable coupon(s)");
         ("applicableCoupons", VArr coupons);
         ("count", number 1)]).
Proof.
  intros items coupons applicable_for.
  assert (Hne : items <> []) by discriminate.
  split; [reflexivity|]. split; [exact Hne|]. split; [reflexivity|].
  exact (applicable_coupons_of_a_valid_cart (host := Sample.host)
           applicable_for (VArr items) items eq_refl Hne eq_refl).
Defined.

Lemma apply_answers_by_the_error_message_witness :
  let items := [line_value (line "A" 100 2)] in
  let apply_to :=
    fun _ _ : value =>
      @Throw value (Error "Coupon cannot be applied to this cart") in
  truthy (VStr "64b") = true
  /\ cart_items (VArr items) = Some items /\ items <> []
  /\ forallb acceptable items = true
  /\ Controller.applyCouponToCart (host := Sample.host) apply_to (VStr "64b")
       (VArr items)
     = respond 400 (VObj [
         ("success", VBool false);
         ("message", VStr "Coupon cannot be applied to this cart")]).
Proof.
  intros items apply_to.
  assert (Hne : items <> []) by discriminate.
  split; [reflexivity|]. split; [reflexivity|]. split; [exact Hne|].
  split; [reflexivity|].
  exact (apply_answers_by_the_error_message (host := Sample.host) apply_to
           (VStr "64b") (VArr items) items eq_refl eq_refl Hne eq_refl).
Defined.


(** * Properties of the calculator on IEEE doubles *)

Section DoubleProperties.

Context {host : Double.Host}.

Lemma double_or_zero (x : float) :
  Double.or_else (Double.VNum x) (Double.VNum 0%float)
  = Double.VNum (Double.or_zero x).
Proof.
  unfold Double.or_else, Double.or_zero. cbn [Double.truthy].
  now destruct (Double.nonzero x).
Qed.

Lemma double_item_total (sum : float) (l : Double.CartLine) :
  Double.item_total sum (Double.line_value l)
  = Return (sum + Double.or_zero (Double.price l)
                  * Double.or_zero (Double.quantity l))%float.
Proof.
  unfold Double.item_total. cbn [Double.line_value Double.get Double.own
    String.eqb Ascii.eqb Bool.eqb bind].
  rewrite !double_or_zero. reflexivity.
Qed.

Lemma double_fold_item_total (C : list Double.CartLine) (sum : float) :
  foldM Double.item_total (map Double.line_value C) sum
  = Return (fold_left
              (fun s l => (s + Double.or_zero (Double.price l)
                               * Double.or_zero (Double.quantity l))%float)
              C sum).
Proof.
  revert sum. induction C as [|l C IH]; intro sum; [reflexivity|].
  cbn [map foldM fold_left]. rewrite double_item_total. cbn [bind]. apply IH.
Qed.

Lemma double_get_minimum (c : Double.CartWiseConfig) :
  a <- Double.get (Double.conditions_value c) "minimum_cart_value" ;;
  Return (Double.or_else a (Double.VNum 0%float))
  = Return (Double.VNum (Double.minimum c)).
Proof.
  unfold Double.minimum.
  destruct c as [[m|] [M|]]; cbn [Double.minimum_cart_value];
    try reflexivity;
    cbn [Double.conditions_value Double.optional app Double.get Double.own
           String.eqb Ascii.eqb Bool.eqb bind Double.minimum_cart_value
           Double.maximum_discount];
    now rewrite double_or_zero.
Qed.

Lemma double_no_items_cart (C : list Double.CartLine) :
  C <> [] -> Double.no_items (Double.cart_value C) = false.
Proof. now destruct C. Qed.

Lemma double_cartwise_gate (C : list Double.CartLine)
  (c : Double.CartWiseConfig) (config : Double.value) :
  C <> [] -> Double.truthy config = true ->
  Double.calculateCartWiseDiscount_body (Double.cart_value C)
    (Double.conditions_value c) config
  = if (Double.total C <? Double.minimum c)%float
    then Double.below_minimum (Double.total C)
           (Double.VNum (Double.minimum c))
    else Double.cart_discount (Double.total C) (Double.conditions_value c)
           config.
Proof.
  intros HC Hconfig. unfold Double.calculateCartWiseDiscount_body.
  rewrite (double_no_items_cart C HC), Hconfig.
  cbn [Double.truthy Double.conditions_value negb orb].
  change (Double.elements (Double.cart_value C))
    with (map Double.line_value C).
  rewrite double_fold_item_total. cbn [bind]. fold (Double.total C).
  pose proof (double_get_minimum c) as Hmin.
  cbn [Double.conditions_value] in Hmin.
  destruct (Double.get _ "minimum_cart_value") as [a|e]; [|discriminate].
  cbn [bind] in Hmin |- *. injection Hmin as ->.
  reflexivity.
Qed.

Lemma double_get_maximum (c : Double.CartWiseConfig) :
  Double.get (Double.conditions_value c) "maximum_discount"
  = Return match Double.maximum_discount c with
           | Some M => Double.VNum M
           | None => Double.VUndefined
           end.
Proof. destruct c as [[m|] [M|]]; reflexivity. Qed.

Lemma double_raw_amount (t : float) (d : Double.DiscountSpec)
  (k : Double.value -> completion Double.value) :
  (amount <-
     (if Double.is_string (Double.type_value (Double.discount_type d))
           "PERCENTAGE"
      then
        percentage <- Double.get (Double.discount_config d) "value" ;;
        product <- Double.js_mul (Double.VNum t) percentage ;;
        Return (Double.VNum (product / 100)%float)
      else if Double.is_string (Double.type_value (Double.discount_type d))
                "FIXED_AMOUNT"
      then Double.get (Double.discount_config d) "value"
      else
        shown <- Double.ToString (Double.type_value (Double.discount_type d)) ;;
        Throw (Error ("Unknown discount type: " ++ shown))) ;;
   k amount)
  = k (Double.VNum (Double.raw_discount d t)).
Proof.
  unfold Double.raw_discount. destruct d as [[|] v]; reflexivity.
Qed.

Lemma double_cart_discount (t : float) (c : Double.CartWiseConfig)
  (d : Double.DiscountSpec) :
  let raw := Double.raw_discount d t in
  exists r,
    Double.cart_discount t (Double.conditions_value c)
      (Double.discount_config d) = Return r
    /\ Double.applicable r = Double.VBool true
    /\ Double.field "cartTotal" (Double.breakdownInfo r)
       = Double.VNum (Binary64._roundPrice t)
    /\ if Double.capped c raw then
         exists M,
           Double.maximum_discount c = Some M
           /\ Double.discountAmount r = Double.VNum (Binary64._roundPrice M)
           /\ Double.reason r
              = Double.VStr ("Discount capped at maximum of Rs."
                               ++ Double.NumberToString M)
           /\ Double.field "calculatedDiscount" (Double.breakdownInfo r)
              = Double.VNum (Binary64._roundPrice raw)
           /\ Double.field "finalAmount" (Double.breakdownInfo r)
              = Double.VUndefined
       else
         Double.discountAmount r = Double.VNum (Binary64._roundPrice raw)
         /\ Double.reason r = Double.VUndefined
         /\ Double.field "finalAmount" (Double.breakdownInfo r)
            = Double.VNum
                (Binary64._roundPrice (t - Binary64._roundPrice raw)%float).
Proof.
  intro raw. unfold Double.cart_discount, Double.capped.
  replace (Double.get (Double.discount_config d) "type")
    with (Return (Double.type_value (Double.discount_type d)))
    by reflexivity.
  cbn [bind]. rewrite double_raw_amount. fold raw.
  rewrite double_get_maximum. cbn [bind].
  replace (Double.get (Double.discount_config d) "value")
    with (Return (Double.VNum (Double.discount_value d))) by reflexivity.
  destruct (Double.maximum_discount c) as [M|].
  - cbn [Double.truthy]. destruct (Double.nonzero M); cbn [andb].
    + cbn [Double.js_gt Double.ToPrimitive Double.ToNumber bind].
      destruct (M <? raw)%float; cbn [bind Double.ToString].
      * eexists. split; [reflexivity|]. split; [reflexivity|].
        split; [reflexivity|]. exists M. repeat split; reflexivity.
      * eexists. split; [reflexivity|]. repeat split; reflexivity.
    + cbn [bind]. eexists. split; [reflexivity|]. repeat split; reflexivity.
  - cbn [Double.truthy bind]. eexists. split; [reflexivity|].
    repeat split; reflexivity.
Qed.



(** X4.  The cap of a cart-wise coupon.  On a non-empty cart whose total
    is not below the minimum, a maximum_discount M other than 0 and NaN
    that the raw discount exceeds makes the discount M, rounded by
    _roundPrice; the result then carries the reason "Discount capped at
    maximum of Rs.M" and the raw discount as calculatedDiscount, and no
    finalAmount.  In every other case the discount is the raw discount
    rounded, and the applicable result has no reason. *)
Theorem cartwise_cap
  (C : list Double.CartLine) (c : Double.CartWiseConfig)
  (d : Double.DiscountSpec) :
  C <> [] -> (Double.total C <? Double.minimum c)%float = false ->
  let raw := Double.raw_discount d (Double.total C) in
  exists r,
    Double.calculateCartWiseDiscount (Double.cart_value C)
      (Double.conditions_value c) (Double.discount_config d) = Return r
    /\ Double.applicable r = Double.VBool true
    /\ match Double.maximum_discount c with
       | Some M =>
           if Double.nonzero M && (M <? raw)%float
           then Double.discountAmount r
                = Double.VNum (Binary64._roundPrice M)
                /\ Double.reason r
                   = Double.VStr ("Discount capped at maximum of Rs."
                                    ++ Double.NumberToString M)
                /\ Double.field "calculatedDiscount" (Double.breakdownInfo r)
                   = Double.VNum (Binary64._roundPrice raw)
                /\ Double.field "finalAmount" (Double.breakdownInfo r)
                   = Double.VUndefined
           else Double.discountAmount r
                = Double.VNum (Binary64._roundPrice raw)
                /\ Double.reason r = Double.VUndefined
       | None => Double.discountAmount r
                 = Double.VNum (Binary64._roundPrice raw)
                 /\ Double.reason r = Double.VUndefined
       end.
Proof.
  intros HC Hmin raw. unfold Double.calculateCartWiseDiscount.
  rewrite (double_cartwise_gate C c (Double.discount_config d) HC eq_refl).
  rewrite Hmin.
  destruct (double_cart_discount (Double.total C) c d)
    as [r [-> [Ha [_ Hrest]]]].
  cbv zeta in Hrest. fold raw in Hrest. unfold Double.capped in Hrest.
  exists r. split; [reflexivity|]. split; [exact Ha|].
  destruct (Double.maximum_discount c) as [M|].
  - destruct (Double.nonzero M && (M <? raw)%float).
    + destruct Hrest as [M' [[= <-] [Hd [Hreason [Hcalc Hfinal]]]]].
      repeat split; assumption.
    + destruct Hrest as [Hd [Hreason _]]. now split.
  - destruct Hrest as [Hd [Hreason _]]. now split.
Qed.

(** C1, at the input where the calculator fails it: a fixed amount of 50 on
    a cart worth 10.  The cart-wise and the product-wise evaluator return a
    discount of 50, five times the cart total; the cart-wise breakdown
    reports a final amount of -40. *)
Theorem fixed_amount_exceeds_the_cart_total :
  let cart := Double.cart_value [Double.line "A" 10 1] in
  let fifty := Double.discount_config (Double.mkDiscount FIXED_AMOUNT 50) in
  Double.calculateCartWiseDiscount cart
    (Double.conditions_value (Double.mkConditions None None)) fifty
  = Return (Double.VObj [
      ("applicable", Double.VBool true);
      ("discountAmount", Double.VNum 50);
      ("breakdownInfo", Double.VObj [
         ("cartTotal", Double.VNum 10);
         ("discountType", Double.VStr "FIXED_AMOUNT");
         ("discountValue", Double.VNum 50);
         ("finalDiscount", Double.VNum 50);
         ("finalAmount", Double.VNum (-40))])])
  /\ exists r,
       Double.calculateProductWiseDiscount cart
         (Double.VArr [Double.VStr "A"]) fifty = Return r
       /\ Double.applicable r = Double.VBool true
       /\ Double.discountAmount r = Double.VNum 50.
Proof.
  split; [vm_compute; reflexivity|].
  eexists. split; [vm_compute; reflexivity|]. split; reflexivity.
Qed.

(** C3, at the input where the calculator fails it: ten percent of a cart
    of 100 under a maximum_discount of 0.  The discount is 10, not 0, and
    the result does not say that a cap applied. *)
Theorem zero_cap_does_not_cap :
  Double.calculateCartWiseDiscount
    (Double.cart_value [Double.line "A" 100 1])
    (Double.conditions_value (Double.mkConditions None (Some 0%float)))
    (Double.discount_config (Double.mkDiscount PERCENTAGE 10))
  = Return (Double.VObj [
      ("applicable", Double.VBool true);
      ("discountAmount", Double.VNum 10);
      ("breakdownInfo", Double.VObj [
         ("cartTotal", Double.VNum 100);
         ("discountType", Double.VStr "PERCENTAGE");
         ("discountValue", Double.VNum 10);
         ("finalDiscount", Double.VNum 10);
         ("finalAmount", Double.VNum 90)])]).
Proof. vm_compute. reflexivity. Qed.

Lemma double_caught (body : completion Double.value) (r : Double.value) :
  try_catch body Double.calculation_error = Return r ->
  Double.breakdownInfo r <> Double.VUndefined ->
  body = Return r.
Proof.
  destruct body as [x|e]; cbn [try_catch].
  - intros [= ->] _. reflexivity.
  - unfold Double.calculation_error. intros [= <-] H. now contradiction H.
Qed.

Ltac step_in H :=
  match type of H with
  | bind ?c _ = _ =>
      let x := fresh "x" in
      let E := fresh "E" in
      destruct c as [x|] eqn:E; cbn [bind] in H; [|discriminate H]
  | (if ?b then _ else _) = _ =>
      let E := fresh "E" in destruct b eqn:E
  end.

Lemma double_cart_discount_total (t : float)
  (conditions config r : Double.value) :
  Double.cart_discount t conditions config = Return r ->
  Double.field "cartTotal" (Double.breakdownInfo r)
  = Double.VNum (Binary64._roundPrice t).
Proof.
  unfold Double.cart_discount. intro H.
  repeat step_in H; injection H as <-; reflexivity.
Qed.

Lemma double_below_minimum_total (t : float) (minimumValue r : Double.value) :
  Double.below_minimum t minimumValue = Return r ->
  Double.field "cartTotal" (Double.breakdownInfo r)
  = Double.VNum (Binary64._roundPrice t).
Proof.
  unfold Double.below_minimum. intro H.
  repeat step_in H; injection H as <-; reflexivity.
Qed.

(** X1.  calculateCartTotal gives 0 on anything but an array, and on every
    input it is the total the cart-wise evaluator reports: whenever
    calculateCartWiseDiscount returns a result with a breakdown, on any
    arguments at all, calculateCartTotal returns a number on the same cart
    and that number is the cartTotal of the breakdown. *)
Theorem cart_total_is_the_total_of_the_breakdown :
  (forall v, Double.Array_isArray v = false ->
             Double.calculateCartTotal v = Return 0%float)
  /\ forall cartItems conditions config r,
       Double.calculateCartWiseDiscount cartItems conditions config
       = Return r ->
       Double.breakdownInfo r <> Double.VUndefined ->
       exists t,
         Double.calculateCartTotal cartItems = Return t
         /\ Double.field "cartTotal" (Double.breakdownInfo r)
            = Double.VNum t.
Proof.
  split.
  - intros v Hv. unfold Double.calculateCartTotal. rewrite Hv.
    now rewrite orb_true_r.
  - intros cartItems conditions config r Hr Hb.
    apply double_caught in Hr; [|exact Hb].
    unfold Double.calculateCartWiseDiscount_body in Hr.
    destruct (Double.no_items cartItems) eqn:Hno.
    { injection Hr as <-. now contradiction Hb. }
    destruct (negb (Double.truthy conditions) || negb (Double.truthy config));
      [discriminate Hr|].
    unfold Double.no_items in Hno.
    apply orb_false_elim in Hno as [Hno _].
    unfold Double.calculateCartTotal. rewrite Hno.
    destruct (foldM Double.item_total (Double.elements cartItems) 0%float)
      as [t|e]; cbn [bind] in Hr |- *; [|discriminate Hr].
    exists (Double._roundPrice (Double.VNum t)). split; [reflexivity|].
    repeat step_in Hr.
    + now apply double_below_minimum_total in Hr.
    + now apply double_cart_discount_total in Hr.
Qed.

Lemma double_discount_item (ids : list Double.value)
  (d : Double.DiscountSpec) (sum : float) (items : list Double.value)
  (l : Double.CartLine) :
  Double.discount_item (Double.VArr ids) (Double.discount_config d)
    (sum, items) (Double.line_value l)
  = Return (if Double.eligible ids l
            then ((sum + Double.line_discount d l)%float,
                  items ++ [Double.discounted_item d l])
            else (sum, items)).
Proof.
  unfold Double.discount_item, Double.eligible.
  cbn [Double.line_value Double.get Double.own String.eqb Ascii.eqb
       Bool.eqb bind].
  destruct (Double.includes (Double.VArr ids) (Double.product_id l));
    [|reflexivity].
  unfold Double.line_discount, Double.discounted_item.
  destruct d as [[|] v]; reflexivity.
Qed.

Lemma double_fold_discount_item (ids : list Double.value)
  (d : Double.DiscountSpec) (C : list Double.CartLine) :
  forall (sum : float) (items : list Double.value),
    foldM (Double.discount_item (Double.VArr ids) (Double.discount_config d))
      (map Double.line_value C) (sum, items)
    = Return
        (fold_left (fun s l => (s + Double.line_discount d l)%float)
           (filter (Double.eligible ids) C) sum,
         items ++ map (Double.discounted_item d)
                    (filter (Double.eligible ids) C)).
Proof.
  induction C as [|l C IH]; intros sum items.
  - cbn. now rewrite app_nil_r.
  - cbn [map foldM filter]. rewrite double_discount_item.
    destruct (Double.eligible ids l); cbn [bind]; rewrite IH.
    + cbn [fold_left map]. now rewrite <- app_assoc.
    + reflexivity.
Qed.

Lemma double_product_ids (C : list Double.CartLine) :
  Double.product_ids (Double.cart_value C)
  = Return (map Double.product_id C).
Proof.
  unfold Double.product_ids. cbn [Double.cart_value Double.elements].
  induction C as [|l C IH]; [reflexivity|].
  cbn [map mapM]. rewrite IH. reflexivity.
Qed.

(** C7, as the calculator has it.  On a non-empty cart and a non-empty
    product list, the discounts of the eligible lines are added in cart
    order as doubles: price * quantity * value / 100 for a percentage,
    value * quantity for a fixed amount.  When that sum is zero the coupon
    is not applicable and the discount is 0; otherwise it is applicable,
    its discount is the sum rounded by _roundPrice, and its breakdown lists
    the eligible lines in cart order. *)
Theorem productwise_discount_is_rounded_sum
  (C : list Double.CartLine) (ids : list Double.value)
  (d : Double.DiscountSpec) :
  C <> [] -> ids <> [] ->
  let discounted := filter (Double.eligible ids) C in
  let sum := Double.discount_sum d discounted in
  exists r,
    Double.calculateProductWiseDiscount (Double.cart_value C)
      (Double.VArr ids) (Double.discount_config d) = Return r
    /\ if (sum =? 0)%float
       then Double.applicable r = Double.VBool false
            /\ Double.discountAmount r = Double.VNum 0%float
            /\ Double.reason r
               = Double.VStr "No applicable products found in your cart"
       else Double.applicable r = Double.VBool true
            /\ Double.discountAmount r
               = Double.VNum (Binary64._roundPrice sum)
            /\ Double.field "totalDiscount" (Double.breakdownInfo r)
               = Double.VNum (Binary64._roundPrice sum)
            /\ Double.field "discountedItems" (Double.breakdownInfo r)
               = Double.VArr (map (Double.discounted_item d) discounted).
Proof.
  intros HC Hids discounted sum.
  unfold Double.calculateProductWiseDiscount,
    Double.calculateProductWiseDiscount_body.
  rewrite (double_no_items_cart C HC).
  replace (Double.no_items (Double.VArr ids)) with false
    by (now destruct ids).
  cbn [Double.discount_config Double.truthy negb].
  change (Double.VObj [("type", Double.type_value (Double.discount_type d));
                       ("value", Double.VNum (Double.discount_value d))])
    with (Double.discount_config d).
  cbn [Double.cart_value Double.elements].
  rewrite double_fold_discount_item. cbn [bind app].
  fold discounted. change (fold_left _ discounted 0%float) with sum.
  destruct (sum =? 0)%float.
  - change (Double.VArr (map Double.line_value C))
      with (Double.cart_value C).
    rewrite double_product_ids. cbn [bind try_catch].
    eexists. split; [reflexivity|]. repeat split; reflexivity.
  - cbn [Double.get Double.discount_config Double.own String.eqb Ascii.eqb
         Bool.eqb bind try_catch].
    eexists. split; [reflexivity|]. repeat split; reflexivity.
Qed.

Lemma double_fold_add_line (C : list Double.CartLine) :
  forall sum : float,
    foldM Double.add_line (map Double.line_value C) (Double.VNum sum)
    = Return (Double.VNum
                (fold_left
                   (fun s l => (s + Double.price l * Double.quantity l)%float)
                   C sum)).
Proof.
  induction C as [|l C IH]; intro sum; [reflexivity|].
  cbn [map foldM]. unfold Double.add_line at 1.
  cbn [Double.line_value Double.get Double.own String.eqb Ascii.eqb Bool.eqb
       bind Double.js_mul Double.js_add Double.ToNumber Double.ToPrimitive].
  apply IH.
Qed.

(** X12.  The service's cart-wise check needs a minimum.  _checkCartWise
    adds price * quantity over the lines in cart order, as doubles, and
    answers applicable exactly when the coupon has a minimum_cart_value
    and that sum is at least the minimum; with no minimum it refuses
    every cart, because a comparison with undefined is false. *)
Theorem cartwise_check_needs_a_minimum (coupon : Double.value)
  (C : list Double.CartLine) (c : Double.CartWiseConfig) :
  Double.get coupon "conditions" = Return (Double.conditions_value c) ->
  exists r,
    Double._checkCartWise coupon (Double.cart_value C) = Return r
    /\ Double.applicable r
       = Double.VBool match Double.minimum_cart_value c with
                      | Some m => (m <=? Double.plain_total C)%float
                      | None => false
                      end.
Proof.
  intro Hc. unfold Double._checkCartWise.
  cbn [Double.cart_value Double.reduced bind].
  rewrite double_fold_add_line. cbn [bind]. fold (Double.plain_total C).
  rewrite Hc. cbn [bind].
  destruct c as [[m|] M]; cbn [Double.minimum_cart_value].
  - cbn [Double.conditions_value Double.minimum_cart_value Double.optional
         app Double.get Double.own String.eqb Ascii.eqb Bool.eqb bind
         Double.js_ge Double.ToPrimitive Double.ToNumber].
    destruct (m <=? Double.plain_total C)%float; cbn [bind Double.ToString];
      eexists; split; reflexivity.
  - assert (Hget : Double.get (Double.conditions_value
                                 (Double.mkConditions None M))
                     "minimum_cart_value" = Return Double.VUndefined)
      by (now destruct M).
    rewrite Hget.
    cbn [bind Double.js_ge Double.ToPrimitive Double.ToNumber
         Double.ToString].
    replace (PrimFloat.nan <=? Double.plain_total C)%float with false.
    + cbn [bind]. eexists. split; reflexivity.
    + rewrite leb_spec. reflexivity.
Qed.




End DoubleProperties.

(** ** The sign of a total *)

Lemma SFcompare_same (s : bool) (m : BinNums.positive) (e : Z) :
  SFcompare (S754_finite s m e) (S754_finite s m e) = Some Eq.
Proof.
  cbn [SFcompare]. rewrite Z.compare_refl.
  assert (H : Pos.compare_cont Eq m m = Eq) by apply Pos.compare_refl.
  rewrite H. now destruct s.
Qed.

Lemma never_negative_sign (x : float) :
  Double.never_negative x = not_below_zero (Prim2SF x).
Proof.
  unfold Double.never_negative, PrimFloat.is_nan.
  rewrite eqb_spec, leb_spec. unfold SFeqb, SFleb.
  change (Prim2SF 0%float) with (S754_zero false).
  destruct (Prim2SF x) as [s|s| |s m e].
  - reflexivity.
  - now destruct s.
  - reflexivity.
  - rewrite SFcompare_same. now destruct s.
Qed.

Lemma rounded_sign (m e : Z) (l : location) :
  not_below_zero (binary_round_aux prec emax false m e l) = true.
Proof.
  unfold binary_round_aux.
  destruct (shr_fexp prec emax m e l) as [mrs e'].
  destruct (shr_fexp prec emax _ e' loc_Exact) as [mrs' e''].
  destruct (shr_m mrs'); [reflexivity| |reflexivity].
  now destruct (e'' <=? emax - prec)%Z.
Qed.

Lemma normalized_sign (m e : Z) :
  (0 <= m)%Z -> not_below_zero (binary_normalize prec emax m e false) = true.
Proof.
  destruct m as [|p|p]; intro H; [reflexivity| |lia].
  unfold binary_normalize, binary_round.
  destruct (shl_align p e _) as [mz ez]. apply rounded_sign.
Qed.

Lemma product_sign (a b : spec_float) :
  not_below_zero a = true -> not_below_zero b = true ->
  not_below_zero (SF64mul a b) = true.
Proof.
  destruct a as [s|[|]| |[|] m e]; try discriminate;
    destruct b as [t|[|]| |[|] n f]; try discriminate; intros _ _;
    try reflexivity.
  apply rounded_sign.
Qed.

Lemma sum_sign (a b : spec_float) :
  not_below_zero a = true -> not_below_zero b = true ->
  not_below_zero (SF64add a b) = true.
Proof.
  destruct a as [s|[|]| |[|] m e]; try discriminate;
    destruct b as [t|[|]| |[|] n f]; try discriminate; intros _ _;
    try reflexivity.
  - now destruct s, t.
  - unfold SF64add, SFadd. apply normalized_sign. cbn [cond_Zopp]. lia.
Qed.

Lemma quotient_sign (a : spec_float) (n : BinNums.positive) (f : Z) :
  not_below_zero a = true ->
  not_below_zero (SF64div a (S754_finite false n f)) = true.
Proof.
  destruct a as [s|[|]| |[|] m e]; try discriminate; intros _;
    try reflexivity.
  unfold SF64div, SFdiv.
  destruct (SFdiv_core_binary prec emax (Z.pos m) e (Z.pos n) f)
    as [[mz ez] lz].
  apply rounded_sign.
Qed.

Lemma of_integer_sign (n : Z) :
  (0 <= n)%Z -> not_below_zero (Prim2SF (Binary64.of_integer n)) = true.
Proof.
  destruct n as [|p|p]; intro H; [reflexivity| |lia].
  unfold Binary64.of_integer. rewrite of_uint63_spec.
  apply normalized_sign.
  pose proof (Uint63.to_Z_bounded (Uint63.of_Z (Z.pos p))). lia.
Qed.

Lemma nearest_integer_sign (y : float) (n : Z) :
  not_below_zero (Prim2SF y) = true ->
  Binary64.nearest_integer y = Some n -> (0 <= n)%Z.
Proof.
  unfold Binary64.nearest_integer.
  destruct (Prim2SF y) as [s|s| |[|] m e]; try discriminate.
  - intros _ H. assert (n = 0%Z) by congruence. lia.
  - intros _ H.
    assert (Hn : n = if (0 <=? e)%Z then (Z.pos m * 2 ^ e)%Z
                     else ((2 * Z.pos m + 2 ^ (- e)) / 2 ^ (1 - e))%Z)
      by congruence.
    rewrite Hn. destruct (0 <=? e)%Z eqn:He.
    + apply Z.leb_le in He. apply Z.mul_nonneg_nonneg; [lia|].
      now apply Z.pow_nonneg.
    + apply Z.leb_gt in He. apply Z.div_pos.
      * pose proof (Z.pow_nonneg 2 (- e)). lia.
      * apply Z.pow_pos_nonneg; lia.
Qed.

Lemma Math_round_sign (y : float) :
  not_below_zero (Prim2SF y) = true ->
  not_below_zero (Prim2SF (Binary64.Math_round y)) = true.
Proof.
  intro Hy. unfold Binary64.Math_round.
  destruct (abs y <? 4503599627370496)%float; [|exact Hy].
  destruct (Binary64.nearest_integer y) as [n|] eqn:Hn; [|exact Hy].
  pose proof (nearest_integer_sign y n Hy Hn) as Hpos.
  destruct n as [|p|p]; [| |lia].
  - destruct (y <? 0)%float; [reflexivity|].
    now destruct (1 / y <? 0)%float.
  - now apply of_integer_sign.
Qed.

Lemma roundPrice_sign (x : float) :
  Double.never_negative x = true ->
  Double.never_negative (Binary64._roundPrice x) = true.
Proof.
  rewrite !never_negative_sign. intro Hx. unfold Binary64._roundPrice.
  rewrite div_spec.
  change (Prim2SF 100%float) with (S754_finite false 7036874417766400 (-46)).
  apply quotient_sign, Math_round_sign.
  rewrite mul_spec. apply product_sign; [exact Hx|reflexivity].
Qed.

Lemma or_zero_sign (x : float) :
  Double.never_negative x = true ->
  Double.never_negative (Double.or_zero x) = true.
Proof.
  intro H. unfold Double.or_zero. now destruct (Double.nonzero x).
Qed.

Lemma above_zero_sign (x : float) :
  (0 <? x)%float = true -> Double.never_negative x = true.
Proof.
  unfold Double.never_negative. rewrite ltb_spec, leb_spec.
  unfold SFltb, SFleb. intro H.
  destruct (SFcompare (Prim2SF 0%float) (Prim2SF x)) as [[| |]|];
    try discriminate. apply orb_true_r.
Qed.

Lemma at_least_zero_sign (x : float) :
  (0 <=? x)%float = true -> Double.never_negative x = true.
Proof.
  unfold Double.never_negative. intros ->. apply orb_true_r.
Qed.

Section DoubleTotals.

Context {host : Double.Host}.

Lemma item_total_sign (sum : float) (item : Double.value) :
  Double.acceptable item = true -> Double.never_negative sum = true ->
  exists t,
    Double.item_total sum item = Return t
    /\ Double.never_negative t = true.
Proof.
  unfold Double.acceptable, Double.item_total.
  destruct item as [| | | | | |props]; try discriminate.
  cbn [Double.get].
  destruct (Double.own "product_id" props) as [id|]; [|discriminate].
  destruct (Double.own "price" props) as [[| | |p| | |]|]; try discriminate.
  destruct (Double.own "quantity" props) as [[| | |q| | |]|];
    try discriminate.
  intros H Hsum.
  apply andb_true_iff in H as [H Hq]. apply andb_true_iff in H as [_ Hp].
  apply at_least_zero_sign, or_zero_sign in Hp.
  apply above_zero_sign, or_zero_sign in Hq.
  cbn [bind]. unfold Double.or_else. cbn [Double.truthy].
  fold (Double.or_zero p) in Hp. 
  replace (if Double.nonzero p then Double.VNum p else Double.VNum 0%float)
    with (Double.VNum (Double.or_zero p))
    by (unfold Double.or_zero; now destruct (Double.nonzero p)).
  replace (if Double.nonzero q then Double.VNum q else Double.VNum 0%float)
    with (Double.VNum (Double.or_zero q))
    by (unfold Double.or_zero; now destruct (Double.nonzero q)).
  cbn [Double.js_mul Double.ToNumber Double.ToPrimitive bind].
  eexists. split; [reflexivity|].
  rewrite never_negative_sign in *. rewrite add_spec.
  apply sum_sign; [exact Hsum|]. rewrite mul_spec. now apply product_sign.
Qed.

Lemma fold_item_total_sign (items : list Double.value) :
  forallb Double.acceptable items = true ->
  forall sum, Double.never_negative sum = true ->
  exists t,
    foldM Double.item_total items sum = Return t
    /\ Double.never_negative t = true.
Proof.
  induction items as [|item items IH]; intros Hall sum Hsum.
  - now exists sum.
  - cbn [forallb] in Hall. apply andb_true_iff in Hall as [Hitem Hall].
    destruct (item_total_sign sum item Hitem Hsum) as [t [Ht Hsign]].
    cbn [foldM]. rewrite Ht. cbn [bind]. now apply IH.
Qed.

(** X23.  On a cart whose every item passes the validation of the handlers
    (an object with a truthy product_id, a numeric price >= 0 and a numeric
    quantity > 0), calculateCartTotal returns a number and does not throw,
    and in the arithmetic of doubles that number is never below zero: it is
    NaN, or it is at least 0. *)
Theorem valid_cart_has_a_total (items : list Double.value) :
  forallb Double.acceptable items = true ->
  exists t,
    Double.calculateCartTotal (Double.VArr items) = Return t
    /\ Double.never_negative t = true.
Proof.
  intro Hall. unfold Double.calculateCartTotal.
  cbn [Double.truthy Double.Array_isArray negb orb Double.elements].
  destruct (fold_item_total_sign items Hall 0%float eq_refl)
    as [t [-> Hsign]].
  cbn [bind Double._roundPrice]. eexists. split; [reflexivity|].
  now apply roundPrice_sign.
Qed.

End DoubleTotals.

(** ** Instances and counterexamples on doubles *)



(* Ten percent of 2.85: the real discount 0.285 rounds to 0.29, the
   calculator gives 0.28. *)
Lemma productwise_discount_is_exact_sum_rounded_fails :
  ~ productwise_discount_is_exact_sum_rounded
      (host := Double.sample_host)
      [Double.line "A" (Double.cents 285) 1%float]
      [Double.VStr "A"]
      (Double.mkDiscount PERCENTAGE 10%float).
Proof.
  intro H.
  destruct (H ltac:(discriminate) ltac:(discriminate)) as [r [Hr Hamount]].
  vm_compute in Hr. injection Hr as <-.
  specialize (Hamount eq_refl). vm_compute in Hamount.
  discriminate Hamount.
Qed.

Lemma productwise_discount_is_rounded_sum_witness :
  let C := [Double.line "A" (Double.cents 285) 1%float;
            Double.line "B" 40%float 2%float] in
  let ids := [Double.VStr "A"] in
  let d := Double.mkDiscount PERCENTAGE 10%float in
  C <> [] /\ ids <> []
  /\ exists r,
       Double.calculateProductWiseDiscount (host := Double.sample_host)
         (Double.cart_value C) (Double.VArr ids) (Double.discount_config d)
       = Return r
       /\ Double.applicable r = Double.VBool true
       /\ Double.discountAmount r = Double.VNum (Double.cents 28).
Proof.
  intros C ids d.
  assert (HC : C <> []) by discriminate.
  assert (Hids : ids <> []) by discriminate.
  split; [exact HC|]. split; [exact Hids|].
  destruct (productwise_discount_is_rounded_sum
              (host := Double.sample_host) C ids d HC Hids)
    as [r [Hr Hcases]].
  exists r. split; [exact Hr|].
  assert (Hsum : (Double.discount_sum d (filter (Double.eligible ids) C)
                  =? 0)%float = false) by (vm_compute; reflexivity).
  cbv zeta in Hcases. rewrite Hsum in Hcases.
  destruct Hcases as [Ha [Hd _]].
  split; [exact Ha|]. rewrite Hd. vm_compute. reflexivity.
Defined.

Lemma cartwise_cap_witness :
  let C := [Double.line "A" 1000%float 1%float] in
  let c := Double.mkConditions (Some 100%float) (Some 50%float) in
  let d := Double.mkDiscount PERCENTAGE 10%float in
  C <> [] /\ (Double.total C <? Double.minimum c)%float = false
  /\ exists r,
       Double.calculateCartWiseDiscount (host := Double.sample_host)
         (Double.cart_value C) (Double.conditions_value c)
         (Double.discount_config d) = Return r
       /\ Double.discountAmount r = Double.VNum 50%float
       /\ Double.reason r = Double.VStr "Discount capped at maximum of Rs.50".
Proof.
  intros C c d.
  assert (HC : C <> []) by discriminate.
  assert (Hmin : (Double.total C <? Double.minimum c)%float = false)
    by (vm_compute; reflexivity).
  split; [exact HC|]. split; [exact Hmin|].
  destruct (cartwise_cap (host := Double.sample_host) C c d HC Hmin)
    as [r [Hr [_ Hcases]]].
  exists r. split; [exact Hr|].
  assert (Hcap : Double.nonzero 50%float
                 && (50 <? Double.raw_discount d (Double.total C))%float
                 = true) by (vm_compute; reflexivity).
  unfold c in Hcases. cbn [Double.maximum_discount] in Hcases.
  rewrite Hcap in Hcases. destruct Hcases as [Hd [Hreason _]].
  split; [exact Hd|]. rewrite Hreason. vm_compute. reflexivity.
Defined.

Lemma cart_total_is_the_total_of_the_breakdown_witness :
  let cart := Double.cart_value [Double.line "A" (Double.cents 62) 1%float] in
  let conditions := Double.conditions_value (Double.mkConditions None None) in
  let config :=
    Double.discount_config (Double.mkDiscount PERCENTAGE 100%float) in
  exists r t,
    Double.calculateCartWiseDiscount (host := Double.sample_host) cart
      conditions config = Return r
    /\ Double.breakdownInfo r <> Double.VUndefined
    /\ Double.calculateCartTotal (host := Double.sample_host) cart
       = Return t
    /\ Double.field "cartTotal" (Double.breakdownInfo r) = Double.VNum t.
Proof.
  intros cart conditions config.
  destruct (Double.calculateCartWiseDiscount (host := Double.sample_host)
              cart conditions config) as [r|e] eqn:Hr;
    [|vm_compute in Hr; discriminate Hr].
  assert (Hb : Double.breakdownInfo r <> Double.VUndefined).
  { vm_compute in Hr. injection Hr as <-. discriminate. }
  destruct (proj2 (cart_total_is_the_total_of_the_breakdown
                     (host := Double.sample_host))
              cart conditions config r Hr Hb) as [t [Ht Hfield]].
  exists r, t. split; [reflexivity|]. split; [exact Hb|].
  split; [exact Ht|exact Hfield].
Defined.

Lemma cartwise_check_needs_a_minimum_witness :
  let c := Double.mkConditions (Some (Double.cents 11808)) None in
  let coupon := Double.VObj [("type", Double.VStr "CART_WISE");
                             ("conditions", Double.conditions_value c)] in
  let C := [Double.line "A" (Double.cents 2865) 3%float;
            Double.line "B" (Double.cents 3213) 1%float] in
  Double.get coupon "conditions" = Return (Double.conditions_value c)
  /\ exists r,
       Double._checkCartWise (host := Double.sample_host) coupon
         (Double.cart_value C) = Return r
       /\ Double.applicable r = Double.VBool false.
Proof.
  intros c coupon C.
  assert (Hc : Double.get coupon "conditions"
               = Return (Double.conditions_value c)) by reflexivity.
  split; [exact Hc|].
  destruct (cartwise_check_needs_a_minimum (host := Double.sample_host)
              coupon C c Hc) as [r [Hr Ha]].
  exists r. split; [exact Hr|]. rewrite Ha. vm_compute. reflexivity.
Defined.

Lemma valid_cart_has_a_total_witness :
  let items := [Double.line_value (Double.line "A" (Double.cents 1999) 3%float);
                Double.line_value (Double.line "B" 0%float 1%float)] in
  forallb Double.acceptable items = true
  /\ exists t,
       Double.calculateCartTotal (host := Double.sample_host)
         (Double.VArr items) = Return t
       /\ Double.never_negative t = true.
Proof.
  intro items.
  assert (Hall : forallb Double.acceptable items = true)
    by (vm_compute; reflexivity).
  split; [exact Hall|].
  exact (valid_cart_has_a_total (host := Double.sample_host) items Hall).
Defined.

(* 0.015 is held as a double just below it, and the product with 100 is
   rounded up to 1.5: the result is 0.02, where the real number rounds to
   0.01. *)
Example roundPrice_of_0_015 :
  Binary64._roundPrice (15 / 1000)%float = (2 / 100)%float.
Proof. vm_compute. reflexivity. Qed.

(* 1.005 is held as a double just below it: the result is 1, not 1.01. *)
Example roundPrice_of_1_005 :
  Binary64._roundPrice (1005 / 1000)%float = 1%float.
Proof. vm_compute. reflexivity. Qed.

(* A total in doubles need not be finite: two units at 2^1023. *)
Example cart_total_overflows :
  Double.calculateCartTotal (host := Double.sample_host)
    (Double.cart_value
       [Double.line "A" (Z.ldexp 1 1023) 2%float])
  = Return PrimFloat.infinity.
Proof. vm_compute. reflexivity. Qed.

(* The order of the lines changes a product-wise discount by a cent:
   20.05 x 1, 18.22 x 3 and 22.06 x 2 at fifty percent. *)
Example productwise_amount_depends_on_the_order :
  let d := Double.mkDiscount PERCENTAGE 50%float in
  let ids := Double.VArr [Double.VStr "A"; Double.VStr "B"; Double.VStr "C"] in
  let a := Double.line "A" (Double.cents 2005) 1%float in
  let b := Double.line "B" (Double.cents 1822) 3%float in
  let c := Double.line "C" (Double.cents 2206) 2%float in
  (exists r,
     Double.calculateProductWiseDiscount (host := Double.sample_host)
       (Double.cart_value [a; b; c]) ids (Double.discount_config d) = Return r
     /\ Double.discountAmount r = Double.VNum (Double.cents 5941))
  /\ exists r,
       Double.calculateProductWiseDiscount (host := Double.sample_host)
         (Double.cart_value [c; b; a]) ids (Double.discount_config d)
       = Return r
       /\ Double.discountAmount r = Double.VNum (Double.cents 5942).
Proof.
  split; eexists; (split; [vm_compute; reflexivity|]); vm_compute;
    reflexivity.
Qed.
